(** * Deployment log diagnostics: [tools/fetch_vercel_logs.py]

    A shallow embedding of the script that lists the deployments of a
    project, picks the latest one, reads its event log and prints a
    diagnostic summary, together with the properties the specification
    states about it.

    Conventions of the embedding.

    - A Python [str] is a [string] holding the UTF-8 bytes of the text.
      [str.lower], [str.upper] and [str.strip] are the ASCII ones: the
      letters [A-Z]/[a-z] change case, the white space is the ASCII white
      space of [str.isspace] (bytes 9-13, 28-31 and 32), and every byte
      above 127 is carried through unchanged.  On ASCII text (which build
      logs and the phrase lists are) this is what Python computes.
    - A decoded JSON document is a [value]; a [dict] is an association list
      read from the left.
    - An exception is a value of [exn]; code that can raise lives in the
      error monad [result], and [main], which also prints, in [IO].
    - [Deployment.created_at] is a rational number of seconds (a finite
      float is one).  [time.localtime] reads a [clock]: the range of time
      stamps of the platform, outside of which it raises, and the local
      zone of the process.
    - The network is an oracle ([World]): it answers a request with an
      HTTP error, an unreachable host, a body that is no JSON, an
      exception that nothing wraps, or a decoded document. *)

From Stdlib Require Import String Ascii List Bool Arith ZArith QArith Qround Lia.
From Stdlib Require Import DecimalString.
From Stdlib Require Import Permutation Sorted.
Import ListNotations.

Local Close Scope Q_scope.
Local Open Scope list_scope.
Local Open Scope string_scope.

(** ** Python strings *)

Module PyStr.

Definition code (c : ascii) : nat := nat_of_ascii c.

Definition isupper_char (c : ascii) : bool :=
  (65 <=? code c)%nat && (code c <=? 90)%nat.

Definition islower_char (c : ascii) : bool :=
  (97 <=? code c)%nat && (code c <=? 122)%nat.

Definition lower_char (c : ascii) : ascii :=
  if isupper_char c then ascii_of_nat (code c + 32) else c.

Definition upper_char (c : ascii) : ascii :=
  if islower_char c then ascii_of_nat (code c - 32) else c.

(** [str.isspace] on one character. *)
Definition isspace (c : ascii) : bool :=
  ((9 <=? code c)%nat && (code c <=? 13)%nat)
  || ((28 <=? code c)%nat && (code c <=? 32)%nat).

Fixpoint map_chars (f : ascii -> ascii) (s : string) : string :=
  match s with
  | EmptyString => EmptyString
  | String c s' => String (f c) (map_chars f s')
  end.

(** [s.lower()] and [s.upper()]. *)
Definition lower (s : string) : string := map_chars lower_char s.
Definition upper (s : string) : string := map_chars upper_char s.

Fixpoint lstrip (s : string) : string :=
  match s with
  | EmptyString => EmptyString
  | String c s' => if isspace c then lstrip s' else s
  end.

Fixpoint rstrip (s : string) : string :=
  match s with
  | EmptyString => EmptyString
  | String c s' =>
      match rstrip s' with
      | EmptyString => if isspace c then EmptyString else String c EmptyString
      | r => String c r
      end
  end.

(** [s.strip()]. *)
Definition strip (s : string) : string := rstrip (lstrip s).

(** [s.startswith(p)]. *)
Fixpoint startswith (p s : string) : bool :=
  match p, s with
  | EmptyString, _ => true
  | String _ _, EmptyString => false
  | String a p', String b s' => Ascii.eqb a b && startswith p' s'
  end.

(** [p in s]: [p] occurs in [s] as a contiguous run of characters. *)
Fixpoint contains (p s : string) : bool :=
  startswith p s ||
  match s with
  | EmptyString => false
  | String _ s' => contains p s'
  end.

(** [sep.join(parts)]. *)
Fixpoint join (sep : string) (parts : list string) : string :=
  match parts with
  | [] => EmptyString
  | [x] => x
  | x :: rest => x ++ sep ++ join sep rest
  end.

(** Truth value of a string: [bool(s)]. *)
Definition truthy (s : string) : bool :=
  match s with EmptyString => false | String _ _ => true end.

(** [str(n)] for an integer. *)
Definition str_of_Z (n : Z) : string := NilZero.string_of_int (Z.to_int n).

Fixpoint all_space (s : string) : bool :=
  match s with
  | EmptyString => true
  | String c s' => isspace c && all_space s'
  end.

(** The relation [contains] decides. *)
Definition Substring (p s : string) : Prop :=
  exists a b, s = a ++ p ++ b.

End PyStr.

Import PyStr.

(** ** Exceptions and the error monad *)

Inductive exn : Type :=
| KeyError (key : string)
| IndexError
| AttributeError
| TypeError
| OverflowError
| OSError
| ValueError
| UnicodeDecodeError
| VercelAPIError (msg : string)
| SystemExit (status : Z).

Definition result (A : Type) : Type := (exn + A)%type.

Definition ret {A : Type} (a : A) : result A := inr a.
Definition raise {A : Type} (e : exn) : result A := inl e.

Definition bind {A B : Type} (c : result A) (k : A -> result B) : result B :=
match c with
| inl e => inl e
| inr a => k a
end.

Declare Scope py_scope.
Delimit Scope py_scope with py.
Notation "x <- c ;; k" := (bind c (fun x => k))
  (at level 61, c at next level, right associativity) : py_scope.
Local Open Scope py_scope.

(** ** Decoded JSON *)

Set Warnings "-register-all".

Inductive value : Type :=
| VNone
| VBool (b : bool)
| VNum (q : Q)
| VStr (s : string)
| VList (items : list value)
| VDict (fields : list (string * value)).

Definition dict : Type := list (string * value).

Module Dict.

Fixpoint lookup (d : dict) (key : string) : option value :=
match d with
| [] => None
| (k, v) :: d' => if String.eqb k key then Some v else lookup d' key
end.

(** [d.get(key)], [None] when the key is absent. *)
Definition get (d : dict) (key : string) : value :=
match lookup d key with
| Some v => v
| None => VNone
end.

(** [d.get(key, default)]. *)
Definition get_default (d : dict) (key : string) (default : value) : value :=
match lookup d key with
| Some v => v
| None => default
end.

(** [key in d]. *)
Definition mem (key : string) (d : dict) : bool :=
match lookup d key with
| Some _ => true
| None => false
end.

(** [d[key]]. *)
Definition getitem (d : dict) (key : string) : result value :=
match lookup d key with
| Some v => ret v
| None => raise (KeyError key)
end.

End Dict.

(** [l[i]] on a list, with Python's negative indices. *)
Definition list_getitem {A : Type} (l : list A) (i : Z) : result A :=
let n := Z.of_nat (length l) in
let j := if (i <? 0)%Z then (i + n)%Z else i in
if (j <? 0)%Z then raise IndexError
else match nth_error l (Z.to_nat j) with
     | Some a => ret a
     | None => raise IndexError
     end.

(** [l.insert(i, x)] for a non-negative [i]; an index past the end appends. *)
Definition list_insert {A : Type} (i : nat) (x : A) (l : list A) : list A :=
(firstn i l ++ x :: skipn i l)%list.

(** ** The data classes *)

Record Deployment : Type := mkDeployment {
  uid : string;
  state : string;
  created_at : Q;
  framework : option string
}.

Record LogInsights : Type := mkLogInsights {
  root_cause : string;
  missing_envs : list string;
  missing_dependencies : list string;
  insights_framework : option string;
  build_status : string;
  recommendations : list string
}.

(** Truth value of an [Optional[str]]. *)
Definition truthy_opt (o : option string) : bool :=
match o with
| Some s => truthy s
| None => false
end.

(** ** Event text *)

Definition extract_text_from_event (event : dict) : result string :=
let payload := Dict.get event "payload" in
let from_payload :=
  match payload with
  | VDict p =>
      match Dict.get p "text" with
      | VStr text => Some text
      | _ => None
      end
  | _ => None
  end in
match from_payload with
| Some text => ret text
| None =>
    if Dict.mem "message" event then
      m <- Dict.getitem event "message" ;;
      match m with
      | VStr s => ret s
      | _ => ret ""
      end
    else ret ""
end.

(** ** Framework *)

Definition FRAMEWORK_MARKERS : list string :=
["next.js"; "astro"; "remix"; "sveltekit"].

(** The chain of [if marker in text: return marker] of one loop turn. *)
Fixpoint first_marker (markers : list string) (text : string) : option string :=
match markers with
| [] => None
| m :: rest => if contains m text then Some m else first_marker rest text
end.

Fixpoint scan_events (events : list dict) : result (option string) :=
match events with
| [] => ret None
| event :: rest =>
    t <- extract_text_from_event event ;;
    let text := lower t in
    match first_marker FRAMEWORK_MARKERS text with
    | Some m => ret (Some m)
    | None => scan_events rest
    end
end.

Definition find_framework (deployment : Deployment) (events : list dict)
  : result (option string) :=
if truthy_opt (framework deployment) then ret (framework deployment)
else scan_events events.

(** ** Pattern classifier *)

(** The inner loop: does some pattern occur in [low]?  It stops at the
    first one that does. *)
Fixpoint any_pattern_in (patterns : list string) (low : string) : bool :=
match patterns with
| [] => false
| pattern :: rest => if contains pattern low then true else any_pattern_in rest low
end.

(** The outer loop, with the list [matches] it appends to. *)
Fixpoint detect_loop (lines patterns matches : list string) : list string :=
match lines with
| [] => matches
| line :: rest =>
    let low := lower line in
    if any_pattern_in patterns low
    then detect_loop rest patterns (matches ++ [strip line])%list
    else detect_loop rest patterns matches
end.

Definition detect_patterns (lines patterns : list string) : list string :=
detect_loop lines patterns [].

(** ** Insights *)

Definition ERROR_PATTERNS : list string :=
["error"; "fail"; "cannot"; "missing"; "module not found"].

Definition ENV_PATTERNS : list string :=
["environment variable"; "env var"; "not set"; "undefined"; "missing key"].

Definition DEPENDENCY_PATTERNS : list string :=
["module not found"; "cannot find module"; "npm err! missing script";
 "package not found"; "dependency is missing"].

Definition NO_ERROR_FOUND : string := "No explicit error message found in logs.".

Definition BASELINE_1 : string :=
"Verify the build command in Vercel project settings.".
Definition BASELINE_2 : string :=
"Confirm all required environment variables are configured in the Vercel dashboard.".
Definition BASELINE_3 : string :=
"Reproduce the build locally with `npm run build` to validate the fix before redeploying.".
Definition ENV_REMEDIATION : string :=
"Set the missing environment variables noted in the logs.".
Definition DEPENDENCY_REMEDIATION : string :=
"Install or declare the dependencies that are reported as missing.".

(** The comprehension
    [[extract_text_from_event(e) for e in events if extract_text_from_event(e)]]. *)
Fixpoint event_lines (events : list dict) : result (list string) :=
match events with
| [] => ret []
| event :: rest =>
    cond <- extract_text_from_event event ;;
    if truthy cond then
      t <- extract_text_from_event event ;;
      ts <- event_lines rest ;;
      ret (t :: ts)
    else event_lines rest
end.

Definition nonempty {A : Type} (l : list A) : bool :=
match l with [] => false | _ :: _ => true end.

Definition derive_insights (deployment : Deployment) (events : list dict)
  : result LogInsights :=
lines <- event_lines events ;;
let error_lines := detect_patterns lines ERROR_PATTERNS in
root <- (if nonempty error_lines then list_getitem error_lines (-1)
         else ret NO_ERROR_FOUND) ;;
let envs := detect_patterns lines ENV_PATTERNS in
let deps := detect_patterns lines DEPENDENCY_PATTERNS in
fw <- find_framework deployment events ;;
let recs := [BASELINE_1; BASELINE_2; BASELINE_3] in
let recs := if nonempty envs then list_insert 1 ENV_REMEDIATION recs else recs in
let recs := if nonempty deps then list_insert 1 DEPENDENCY_REMEDIATION recs else recs in
ret {| root_cause := root;
       missing_envs := envs;
       missing_dependencies := deps;
       insights_framework := fw;
       build_status := state deployment;
       recommendations := recs |}.

(** ** Sorting: [list.sort(key=..., reverse=...)]

    [list.sort] is a stable sort that compares keys with [<] only.  With
    [reverse=True] the list is reversed, sorted and reversed again, which
    keeps the elements of equal key in their original order. *)

Section Sort.

Context {A : Type} (key : A -> Q).

Definition key_lt (x y : A) : bool := negb (Qle_bool (key y) (key x)).

(** [x] stood before every element of [l] in the list being sorted: it
    passes the elements of strictly smaller key and stops at the first
    other one. *)
Fixpoint insert_stable (x : A) (l : list A) : list A :=
match l with
| [] => [x]
| y :: l' => if key_lt y x then y :: insert_stable x l' else x :: y :: l'
end.

Fixpoint stable_sort (l : list A) : list A :=
match l with
| [] => []
| x :: l' => insert_stable x (stable_sort l')
end.

Definition list_sort (reverse : bool) (l : list A) : list A :=
if reverse then rev (stable_sort (rev l)) else stable_sort l.

End Sort.

(** ** Time stamps: [time.localtime] and [time.strftime] *)

Module PyTime.

Record struct_time : Type := mkTime {
  tm_year : Z; tm_mon : Z; tm_mday : Z;
  tm_hour : Z; tm_min : Z; tm_sec : Z
}.

(** Day number since 1970-01-01 to the civil date. *)
Definition civil_from_days (days : Z) : Z * Z * Z :=
let z := (days + 719468)%Z in
let era := (z / 146097)%Z in
let doe := (z - era * 146097)%Z in
let yoe := ((doe - doe / 1460 + doe / 36524 - doe / 146096) / 365)%Z in
let y := (yoe + era * 400)%Z in
let doy := (doe - (365 * yoe + yoe / 4 - yoe / 100))%Z in
let mp := ((5 * doy + 2) / 153)%Z in
let d := (doy - (153 * mp + 2) / 5 + 1)%Z in
let m := if (mp <? 10)%Z then (mp + 3)%Z else (mp - 9)%Z in
((if (m <=? 2)%Z then y + 1 else y)%Z, m, d).

(** What [time.localtime] reads of the process and its platform: the
    range of [time_t], and the local zone, which gives the offset from UTC
    at an instant or nothing when the C library cannot convert it. *)
Record clock : Type := mkClock {
  time_t_min : Z;
  time_t_max : Z;
  zone : Z -> option Z
}.

Definition broken_down (loc : Z) : struct_time :=
let '(y, m, d) := civil_from_days (loc / 86400) in
let sod := (loc mod 86400)%Z in
mkTime y m d (sod / 3600) ((sod mod 3600) / 60) (sod mod 60).

(** [time.localtime(t)]: the time stamp is cut to whole seconds; outside
    of [time_t] it raises [OverflowError]; when the zone cannot convert it
    raises [OSError]; otherwise it is moved by the offset of the zone. *)
Definition localtime (c : clock) (t : Q) : result struct_time :=
let secs := Qfloor t in
if ((secs <? time_t_min c) || (time_t_max c <? secs))%Z then raise OverflowError
else match zone c secs with
     | None => raise OSError
     | Some offset => ret (broken_down (secs + offset))
     end.

Definition two_digits (n : Z) : string :=
if (n <? 10)%Z then "0" ++ str_of_Z n else str_of_Z n.

(** [time.strftime("%Y-%m-%d %H:%M:%S", tm)]. *)
Definition strftime (tm : struct_time) : string :=
str_of_Z (tm_year tm) ++ "-" ++ two_digits (tm_mon tm) ++ "-" ++ two_digits (tm_mday tm)
++ " " ++ two_digits (tm_hour tm) ++ ":" ++ two_digits (tm_min tm) ++ ":"
++ two_digits (tm_sec tm).

End PyTime.

(** ** The console *)

(** The console: the texts given to [print], oldest first. *)
Definition console : Type := list string.

Definition IO (A : Type) : Type := console -> console * result A.

Definition io_ret {A : Type} (a : A) : IO A := fun out => (out, ret a).

Definition io_bind {A B : Type} (c : IO A) (k : A -> IO B) : IO B :=
fun out =>
  match c out with
  | (out', inl e) => (out', inl e)
  | (out', inr a) => k a out'
  end.

Definition lift {A : Type} (c : result A) : IO A := fun out => (out, c).

Definition print (text : string) : IO unit := fun out => ((out ++ [text])%list, ret tt).

(** [try: x = c  except VercelAPIError as exc: handler(exc)], then [k x]. *)
Definition try_api {A B : Type} (c : result A) (handler : string -> IO B)
  (k : A -> IO B) : IO B :=
match c with
| inl (VercelAPIError msg) => handler msg
| inl e => lift (raise e)
| inr a => k a
end.

Notation "x <~ c ;; k" := (io_bind c (fun x => k))
  (at level 61, c at next level, right associativity) : py_scope.
Notation "c ;;; k" := (io_bind c (fun _ => k))
  (at level 61, right associativity) : py_scope.

(** ** Report *)

Definition text_of_bytes (codes : list nat) : string :=
string_of_list_ascii (map ascii_of_nat codes).

(** The pictograms of the messages, byte for byte as the source file has
    them. *)
Definition ICON_STATUS : string := text_of_bytes [239; 163; 191; 195; 188; 195; 174; 195; 167].
Definition ICON_CAUSE : string := text_of_bytes [239; 163; 191; 195; 188; 195; 159; 226; 128; 160].
Definition ICON_FIX : string := text_of_bytes [239; 163; 191; 195; 188; 195; 181; 226; 128; 160].
Definition ICON_LINK : string := text_of_bytes [239; 163; 191; 195; 188; 195; 174; 195; 179].
Definition ICON_CROSS : string := text_of_bytes [226; 128; 154; 195; 185; 195; 165].

Definition NL : string := String (ascii_of_nat 10) "".

Definition BULLET : string := NL ++ "  - ".

(** [insights.framework or "Unknown"]. *)
Definition framework_label (insights : LogInsights) : string :=
match insights_framework insights with
| Some s => if truthy s then s else "Unknown"
| None => "Unknown"
end.

Definition status_line (insights : LogInsights) : string :=
ICON_STATUS ++ " BUILD STATUS | " ++ upper (build_status insights)
++ " | Framework: " ++ framework_label insights.

Definition root_cause_line (insights : LogInsights) : string :=
ICON_CAUSE ++ " ROOT CAUSE | " ++ root_cause insights.

Definition env_section (insights : LogInsights) : string :=
"Missing ENV Vars:" ++ BULLET ++ join BULLET (missing_envs insights).

Definition dependency_section (insights : LogInsights) : string :=
"Missing Dependencies:" ++ BULLET ++ join BULLET (missing_dependencies insights).

Definition fix_section (insights : LogInsights) : string :=
ICON_FIX ++ " FIX RECOMMENDATION |" ++ BULLET ++ join BULLET (recommendations insights).

Definition header (created : string) (deployment : Deployment) : string :=
ICON_LINK ++ " Latest deployment: " ++ uid deployment ++ " | Created: " ++ created.

(** [format_summary] reads the local time of the process through
    [time.localtime], which can raise: it lives in [IO]. *)
Definition format_summary (c : PyTime.clock) (insights : LogInsights)
  (deployment : Deployment) : IO string :=
let extra_sections := [] in
let extra_sections :=
  if nonempty (missing_envs insights)
  then (extra_sections ++ [env_section insights])%list else extra_sections in
let extra_sections :=
  if nonempty (missing_dependencies insights)
  then (extra_sections ++ [dependency_section insights])%list else extra_sections in
tm <~ lift (PyTime.localtime c (created_at deployment)) ;;
let created := PyTime.strftime tm in
let sections := [header created deployment; status_line insights; root_cause_line insights] in
let sections := (sections ++ extra_sections)%list in
let sections := (sections ++ [fix_section insights])%list in
io_ret (join (NL ++ NL) sections).

(** ** The script: requests, console and [main]

    The network is an oracle.  For the deployment list it answers with the
    records the loop of [list_deployments] builds from the items of the
    response, in the order of the response; for the event log it answers
    with the decoded JSON document.  [Raises e] is an exception that
    [make_request] does not wrap and nothing catches before [main]: a
    socket error while the body is read ([OSError]), a body that is not
    UTF-8 ([UnicodeDecodeError]) and, for the deployment list, what the
    loop over the items raises ([AttributeError] on an item that is no
    object, [TypeError] or [ValueError] from [float]). *)

Inductive http_outcome (A : Type) : Type :=
| HTTPError (code : Z) (reason : string)
| URLError (reason : string)
| InvalidJSON
| Raises (e : exn)
| Payload (data : A).

Arguments HTTPError {A} code reason.
Arguments URLError {A} reason.
Arguments InvalidJSON {A}.
Arguments Raises {A} e.
Arguments Payload {A} data.

Record request : Type := mkRequest {
  url : string;
  headers : list (string * string);
  params : list (string * string)
}.

Record World : Type := mkWorld {
  getenv : string -> option string;
  deployments_api : request -> http_outcome (list Deployment);
  events_api : request -> http_outcome value;
  clock : PyTime.clock
}.

Definition API_BASE_DEPLOYMENTS : string := "https://api.vercel.com/v6/deployments".

Definition API_DEPLOYMENT_EVENTS (id : string) : string :=
"https://api.vercel.com/v13/deployments/" ++ id ++ "/events".

Definition make_request {A : Type} (api : request -> http_outcome A)
  (url : string) (headers params : list (string * string)) : result A :=
match api (mkRequest url headers params) with
| HTTPError code reason =>
    raise (VercelAPIError ("HTTP error " ++ str_of_Z code ++ " from Vercel API: " ++ reason))
| URLError reason =>
    raise (VercelAPIError ("Failed to reach Vercel API: " ++ reason))
| InvalidJSON =>
    raise (VercelAPIError "Invalid JSON payload from Vercel API")
| Raises e => raise e
| Payload data => ret data
end.

Definition list_deployments (w : World) (token project : string) (team : option string)
  : result (list Deployment) :=
let headers := [("Authorization", "Bearer " ++ token)] in
let params := [("projectId", project); ("limit", "20")] in
let params :=
  match team with
  | Some t => if truthy t then (params ++ [("teamId", t)])%list else params
  | None => params
  end in
deployments <- make_request (deployments_api w) API_BASE_DEPLOYMENTS headers params ;;
ret (list_sort created_at true deployments).

(** What a [for] loop over a JSON value goes through. *)
Definition iterate (v : value) : result (list value) :=
match v with
| VList items => ret items
| VDict fields => ret (map (fun kv => VStr (fst kv)) fields)
| VStr s => ret (map (fun c => VStr (String c "")) (list_ascii_of_string s))
| _ => raise TypeError
end.

Fixpoint only_dicts (events : list value) : list dict :=
match events with
| [] => []
| VDict d :: rest => d :: only_dicts rest
| _ :: rest => only_dicts rest
end.

Definition fetch_events (w : World) (token deployment_id : string) (team : option string)
  : result (list dict) :=
let headers := [("Authorization", "Bearer " ++ token)] in
let params :=
  match team with
  | Some t => if truthy t then [("teamId", t)] else []
  | None => []
  end in
let url := API_DEPLOYMENT_EVENTS deployment_id in
data <- make_request (events_api w) url headers params ;;
events <- match data with
          | VList _ => ret data
          | VDict d => ret (Dict.get_default d "events" (VList []))
          | _ => raise AttributeError
          end ;;
items <- iterate events ;;
ret (only_dicts items).

Definition getenv_or_exit (w : World) (key : string) : IO string :=
match getenv w key with
| Some value =>
    if truthy value then io_ret value
    else print (ICON_CROSS ++ " Environment variable " ++ key ++ " is not set.") ;;;
         lift (raise (SystemExit 1))
| None =>
    print (ICON_CROSS ++ " Environment variable " ++ key ++ " is not set.") ;;;
    lift (raise (SystemExit 1))
end.

Definition NO_DEPLOYMENTS : string := "No deployments found for the specified project.".

Definition main (w : World) : IO Z :=
token <~ getenv_or_exit w "VERCEL_TOKEN" ;;
project <~ getenv_or_exit w "VERCEL_PROJECT_NAME" ;;
let team := getenv w "VERCEL_TEAM_ID" in
try_api (list_deployments w token project team)
  (fun exc => print (ICON_CROSS ++ " " ++ exc) ;;; io_ret 1%Z)
  (fun deployments =>
     if negb (nonempty deployments) then
       print (ICON_CROSS ++ " " ++ NO_DEPLOYMENTS) ;;; io_ret 1%Z
     else
       latest <~ lift (list_getitem deployments 0) ;;
       print (ICON_LINK ++ " Latest deployment: " ++ uid latest ++ " | State: " ++ state latest) ;;;
       try_api (fetch_events w token (uid latest) team)
         (fun exc => print (ICON_CROSS ++ " " ++ exc) ;;; io_ret 1%Z)
         (fun events =>
            insights <~ lift (derive_insights latest events) ;;
            summary <~ format_summary (clock w) insights latest ;;
            print "" ;;;
            print summary ;;;
            io_ret 0%Z)).

(** [raise SystemExit(main())]: what is printed and the exit status; an
    exception other than [SystemExit] is left as it is. *)
Definition run (w : World) : console * result Z :=
match main w [] with
| (out, inl (SystemExit status)) => (out, ret status)
| r => r
end.

(** ** Vocabulary of the statements and sample data *)

(** The text of an event: what [extract_text_from_event] returns. *)
Definition event_text (event : dict) : string :=
match extract_text_from_event event with
| inr s => s
| inl _ => ""
end.

(** A line mentions a phrase set when its lower-cased form holds one of the
    phrases. *)
Definition mentions (phrases : list string) (line : string) : bool :=
existsb (fun p => contains p (lower line)) phrases.

(** The lines the three classifications of [derive_insights] keep. *)
Definition error_lines (events : list dict) : list string :=
map strip (filter (mentions ERROR_PATTERNS) (map event_text events)).

Definition env_lines (events : list dict) : list string :=
map strip (filter (mentions ENV_PATTERNS) (map event_text events)).

Definition dependency_lines (events : list dict) : list string :=
map strip (filter (mentions DEPENDENCY_PATTERNS) (map event_text events)).

Definition visible_start (p : string) : bool :=
match p with
| EmptyString => false
| String c _ => negb (isspace c)
end.

(** A platform with a 64-bit [time_t] whose C library converts the
    instants up to the year 2147485547, in a zone at a fixed offset. *)
Definition fixed_zone (offset : Z) : PyTime.clock :=
PyTime.mkClock (- 2 ^ 63) (2 ^ 63 - 1)
  (fun secs => if (Z.abs secs <=? 67767976233446399)%Z then Some offset else None).

Definition utc : PyTime.clock := fixed_zone 0.

Definition sample_deployment : Deployment :=
{| uid := "dpl_8fK2"; state := "ERROR"; created_at := (1700000000 # 1)%Q; framework := None |}.

Definition message_event (text : string) : dict := [("message", VStr text)].

Definition payload_event (text : string) : dict :=
[("type", VStr "stdout"); ("payload", VDict [("text", VStr text)])].

Definition constant_world (deployments : http_outcome (list Deployment))
  (events : http_outcome value) : World :=
{| getenv := fun key =>
     if String.eqb key "VERCEL_TOKEN" then Some "tok_1"
     else if String.eqb key "VERCEL_PROJECT_NAME" then Some "audiojones" else None;
   deployments_api := fun _ => deployments;
   events_api := fun _ => events;
   clock := utc |}.



Definition credentials (w : World) (token project : string) : Prop :=
getenv w "VERCEL_TOKEN" = Some token /\ truthy token = true
/\ getenv w "VERCEL_PROJECT_NAME" = Some project /\ truthy project = true.

(** The failures [make_request] wraps in [VercelAPIError]. *)
Definition failed {A : Type} (o : http_outcome A) : bool :=
match o with
| HTTPError _ _ | URLError _ | InvalidJSON => true
| Raises _ | Payload _ => false
end.

Definition BLANK : string := NL ++ NL.

(** The text of the report, given the creation time as it is printed. *)
Definition report_layout (created : string) (i : LogInsights) (d : Deployment) : string :=
header created d ++ BLANK ++ status_line i ++ BLANK ++ root_cause_line i
++ (if nonempty (missing_envs i) then BLANK ++ env_section i else "")
++ (if nonempty (missing_dependencies i) then BLANK ++ dependency_section i else "")
++ BLANK ++ fix_section i.


Definition sample_insights : LogInsights :=
{| root_cause := NO_ERROR_FOUND;
   missing_envs := [];
   missing_dependencies := [];
   insights_framework := Some "next.js";
   build_status := "ready";
   recommendations := [BASELINE_1; BASELINE_2; BASELINE_3] |}.

(** A zone one hour ahead of UTC until 2001 and on UTC since. *)
Definition summer_until_2001 : PyTime.clock :=
PyTime.mkClock (- 2 ^ 63) (2 ^ 63 - 1)
  (fun secs => Some (if (secs <? 1000000000)%Z then 3600%Z else 0%Z)).

Definition three_deployments : list Deployment :=
[mkDeployment "A" "READY" (100 # 1) None;
 mkDeployment "B" "ERROR" (200 # 1) None;
 mkDeployment "C" "READY" (200 # 1) None].

(** ** Decoding of one item of the deployment list: the framework

    The lines of the loop of [list_deployments] that read the framework of
    an item: [meta = item.get("meta") or {}], then [meta.get("framework")]
    when [meta] is a dict. *)

(** Truth value of a JSON value: [bool(v)]. *)
Definition value_truthy (v : value) : bool :=
match v with
| VNone => false
| VBool b => b
| VNum q => negb (Qeq_bool q 0)
| VStr s => truthy s
| VList items => nonempty items
| VDict fields => nonempty fields
end.

Definition item_framework (item : dict) : value :=
let framework := VNone in
let meta := Dict.get item "meta" in
let meta := if value_truthy meta then meta else VDict [] in
match meta with
| VDict m => Dict.get m "framework"
| _ => framework
end.

(** ** Vocabulary of the further properties *)

Definition is_dict (v : value) : bool :=
match v with
| VDict _ => true
| _ => false
end.

Fixpoint forall_chars (f : ascii -> bool) (s : string) : bool :=
match s with
| EmptyString => true
| String c s' => f c && forall_chars f s'
end.

Definition is_ascii (s : string) : bool :=
forall_chars (fun c => (code c <? 128)%nat) s.

(** The text holds one of the letters [A-Z]. *)
Definition has_upper (s : string) : bool :=
negb (forall_chars (fun c => negb (isupper_char c)) s).

(** The texts a run renders are ASCII: those of the events and the state
    of the deployment.  On them [lower], [upper] and [strip] are Python's. *)
Definition ascii_log (events : list dict) (d : Deployment) : Prop :=
forallb is_ascii (map event_text events) = true /\ is_ascii (state d) = true.

(** An entry of a classification: not empty, no white space at its ends. *)
Definition clean (x : string) : Prop := x <> "" /\ strip x = x.

(** The line [main] prints once it has picked the latest deployment. *)
Definition announce (latest : Deployment) : string :=
ICON_LINK ++ " Latest deployment: " ++ uid latest ++ " | State: " ++ state latest.

(** A world with the two variables set whose requests are answered with
    one deployment and the given event document. *)
Definition world_with_events (document : http_outcome value) : World :=
constant_world (Payload [sample_deployment]) document.

Definition starts_visible (s : string) : bool :=
match s with
| EmptyString => true
| String c _ => negb (isspace c)
end.

(** Orders on the entries of a list sorted by [key], and the entries of
    one key. *)
Definition ascending {A : Type} (key : A -> Q) (a b : A) : Prop := (key a <= key b)%Q.
Definition descending {A : Type} (key : A -> Q) (a b : A) : Prop := (key b <= key a)%Q.
Definition at_time {A : Type} (key : A -> Q) (t : Q) (a : A) : bool := Qeq_bool (key a) t.

Definition is_list (v : value) : bool :=
match v with
| VList _ => true
| _ => false
end.

(** The values a [for] loop accepts. *)
Definition iterable (v : value) : bool :=
match v with
| VList _ | VDict _ | VStr _ => true
| _ => false
end.

Definition NOT_SET (key : string) : string :=
ICON_CROSS ++ " Environment variable " ++ key ++ " is not set.".

(** * Properties *)

(** ** Checks of the embedding on concrete inputs *)

Example lower_example : lower "Error: Module NOT found" = "error: module not found".
Proof. reflexivity. Qed.

Example strip_example :
strip (String (ascii_of_nat 9) "  npm ERR! missing script  " ++ String (ascii_of_nat 10) "")
= "npm ERR! missing script".
Proof. reflexivity. Qed.

Example contains_example :
contains "not set" "api_key is not set." = true /\ contains "fail" "fai led" = false.
Proof. split; reflexivity. Qed.

Example join_example : join ", " ["a"; "b"; "c"] = "a, b, c".
Proof. reflexivity. Qed.

Example str_of_Z_example : str_of_Z 404 = "404" /\ str_of_Z 0 = "0".
Proof. split; reflexivity. Qed.

Example derive_insights_example :
exists i,
  derive_insights sample_deployment
    [message_event "Error: Module not found: 'foo'"; message_event "Build completed"]
  = inr i
  /\ missing_dependencies i = ["Error: Module not found: 'foo'"]
  /\ missing_envs i = []
  /\ root_cause i = "Error: Module not found: 'foo'"
  /\ insights_framework i = None.
Proof. eexists. repeat split. Qed.

Example run_example :
run (constant_world
       (Payload [mkDeployment "A" "READY" (100 # 1) None;
                 mkDeployment "B" "ERROR" (1700000000123 # 1000) None])
       (Payload (VDict [("events",
          VList [VDict (payload_event "Error: Cannot find module 'sharp'");
                 VStr "noise";
                 VDict (message_event "  STRIPE_KEY is not set  ")])])))
= ([ICON_LINK ++ " Latest deployment: B | State: ERROR";
    "";
    join NL
      [ICON_LINK ++ " Latest deployment: B | Created: 2023-11-14 22:13:20";
       "";
       ICON_STATUS ++ " BUILD STATUS | ERROR | Framework: Unknown";
       "";
       ICON_CAUSE ++ " ROOT CAUSE | Error: Cannot find module 'sharp'";
       "";
       "Missing ENV Vars:";
       "  - STRIPE_KEY is not set";
       "";
       "Missing Dependencies:";
       "  - Error: Cannot find module 'sharp'";
       "";
       ICON_FIX ++ " FIX RECOMMENDATION |";
       "  - Verify the build command in Vercel project settings.";
       "  - Install or declare the dependencies that are reported as missing.";
       "  - Set the missing environment variables noted in the logs.";
       "  - Confirm all required environment variables are configured in the Vercel dashboard.";
       "  - Reproduce the build locally with `npm run build` to validate the fix before redeploying."]],
   inr 0%Z).
Proof. reflexivity. Qed.

Example run_without_token :
run {| getenv := fun _ => None;
       deployments_api := fun _ => Payload [];
       events_api := fun _ => InvalidJSON;
       clock := utc |}
= ([ICON_CROSS ++ " Environment variable VERCEL_TOKEN is not set."], inr 1%Z).
Proof. reflexivity. Qed.

(** *** Facts on strings *)

Section StringFacts.

Lemma startswith_spec (p s : string) :
  startswith p s = true <-> exists b, s = p ++ b.
Proof.
  revert s; induction p as [|a p IH]; intros s; simpl.
  - split; [intros _; now exists s | reflexivity].
  - destruct s as [|b s].
    + split; [discriminate | intros [x Hx]; discriminate].
    + rewrite andb_true_iff, Ascii.eqb_eq, IH. split.
      * intros [-> [x ->]]. now exists x.
      * intros [x Hx]. injection Hx as -> ->. split; [reflexivity | now exists x].
Qed.

Lemma contains_spec (p s : string) :
  contains p s = true <-> Substring p s.
Proof.
  unfold Substring. induction s as [|c s IH]; simpl.
  - rewrite orb_false_r, startswith_spec. split.
    + intros [b Hb]. now exists "", b.
    + intros [a [b H]]. destruct a; [now exists b | discriminate].
  - rewrite orb_true_iff, startswith_spec, IH. split.
    + intros [[b Hb] | [a [b Hab]]].
      * now exists "", b.
      * exists (String c a), b. simpl. now rewrite Hab.
    + intros [a [b H]]. destruct a as [|c' a]; simpl in H.
      * left. now exists b.
      * right. injection H as _ ->. now exists a, b.
Qed.

Lemma contains_empty_line (p : string) :
  contains p "" = String.eqb "" p.
Proof. destruct p; reflexivity. Qed.

Lemma isspace_lower_char (c : ascii) : isspace (lower_char c) = isspace c.
Proof. destruct c as [[] [] [] [] [] [] [] []]; reflexivity. Qed.

Lemma all_space_lower (s : string) : all_space (lower s) = all_space s.
Proof.
  induction s as [|c s IH]; simpl; [reflexivity|].
  now rewrite isspace_lower_char; unfold lower in IH; rewrite IH.
Qed.

Lemma all_space_app (a b : string) :
  all_space (a ++ b) = all_space a && all_space b.
Proof.
  induction a as [|c a IH]; simpl; [reflexivity|].
  now rewrite IH, andb_assoc.
Qed.

Lemma rstrip_empty (s : string) : rstrip s = "" -> all_space s = true.
Proof.
  induction s as [|c s IH]; simpl; [reflexivity|].
  destruct (rstrip s) eqn:E; [|discriminate].
  destruct (isspace c); [intros _; now apply IH | discriminate].
Qed.

Lemma lstrip_all_space (s : string) :
  all_space (lstrip s) = true -> all_space s = true.
Proof.
  induction s as [|c s IH]; simpl; [reflexivity|].
  destruct (isspace c) eqn:E; simpl; [exact IH|].
  now rewrite E.
Qed.

Lemma strip_empty (s : string) : strip s = "" -> all_space s = true.
Proof. intros H. now apply lstrip_all_space, rstrip_empty. Qed.

(** A line whose lower-cased form holds a phrase that starts with a
    visible character does not strip to the empty string. *)
Lemma strip_nonempty_of_contains (c : ascii) (p line : string) :
  isspace c = false ->
  contains (String c p) (lower line) = true ->
  strip line <> "".
Proof.
  intros Hc Hin Hs. apply strip_empty in Hs.
  rewrite <- all_space_lower in Hs.
  apply contains_spec in Hin. destruct Hin as [a [b Hab]].
  rewrite Hab, all_space_app in Hs. simpl in Hs.
  rewrite Hc in Hs. simpl in Hs. now rewrite andb_false_r in Hs.
Qed.

End StringFacts.

Example strftime_epoch :
  PyTime.localtime utc 0%Q = inr (PyTime.mkTime 1970 1 1 0 0 0)
  /\ PyTime.strftime (PyTime.mkTime 1970 1 1 0 0 0) = "1970-01-01 00:00:00".
Proof. split; reflexivity. Qed.

Example strftime_2023 :
  match PyTime.localtime utc (1700000000123 # 1000) with
  | inr tm => PyTime.strftime tm
  | inl _ => ""
  end = "2023-11-14 22:13:20".
Proof. reflexivity. Qed.

Example strftime_leap_day :
  match PyTime.localtime (fixed_zone 3600) (951778800 # 1) with
  | inr tm => PyTime.strftime tm
  | inl _ => ""
  end = "2000-02-29 00:00:00".
Proof. reflexivity. Qed.

(** ** What the core functions return *)

Lemma extract_text_returns (event : dict) :
  extract_text_from_event event = inr (event_text event).
Proof.
  unfold event_text.
  destruct (extract_text_from_event event) as [e|s] eqn:E; [exfalso | reflexivity].
  unfold extract_text_from_event in E.
  destruct (Dict.get event "payload") as [| | | |items|p];
    try destruct (Dict.get p "text");
    try discriminate;
    unfold Dict.mem, Dict.getitem in E;
    destruct (Dict.lookup event "message") as [[]|]; simpl in E; discriminate.
Qed.

Lemma event_lines_returns (events : list dict) :
  event_lines events = inr (filter truthy (map event_text events)).
Proof.
  induction events as [|event rest IH]; simpl; [reflexivity|].
  rewrite extract_text_returns. simpl.
  destruct (truthy (event_text event)); [|exact IH].
  now rewrite IH.
Qed.

Lemma any_pattern_in_existsb (patterns : list string) (low : string) :
  any_pattern_in patterns low = existsb (fun p => contains p low) patterns.
Proof.
  induction patterns as [|p rest IH]; simpl; [reflexivity|].
  destruct (contains p low); [reflexivity | exact IH].
Qed.


Lemma detect_loop_filter (lines patterns matches : list string) :
  detect_loop lines patterns matches
  = (matches ++ map strip (filter (mentions patterns) lines))%list.
Proof.
  revert matches; induction lines as [|line rest IH]; intros matches; simpl.
  - now rewrite app_nil_r.
  - unfold mentions at 1. rewrite <- any_pattern_in_existsb.
    destruct (any_pattern_in patterns (lower line)); rewrite IH; simpl.
    + now rewrite <- app_assoc.
    + reflexivity.
Qed.

Lemma detect_patterns_filter (lines patterns : list string) :
  detect_patterns lines patterns = map strip (filter (mentions patterns) lines).
Proof. unfold detect_patterns. now rewrite detect_loop_filter. Qed.

(** An empty line mentions a phrase set only through an empty phrase. *)
Lemma mentions_empty_line (phrases : list string) :
  mentions phrases "" = existsb (String.eqb "") phrases.
Proof.
  unfold mentions. change (lower "") with "".
  induction phrases as [|p rest IH]; cbn [existsb]; [reflexivity|].
  now rewrite contains_empty_line, IH.
Qed.

(** Dropping the empty texts loses no line that mentions a set without the
    empty phrase. *)
Lemma filter_mentions_truthy (phrases texts : list string) :
  existsb (String.eqb "") phrases = false ->
  filter (mentions phrases) (filter truthy texts) = filter (mentions phrases) texts.
Proof.
  intros Hne. induction texts as [|t rest IH]; simpl; [reflexivity|].
  destruct t as [|c t]; simpl.
  - rewrite mentions_empty_line, Hne. exact IH.
  - destruct (mentions phrases (String c t)); now rewrite IH.
Qed.

Lemma list_getitem_last {A : Type} (l : list A) (x d : A) :
  list_getitem (l ++ [x])%list (-1) = inr (last (l ++ [x])%list d).
Proof.
  unfold list_getitem. rewrite last_last, length_app. cbn [length].
  change (-1 <? 0)%Z with true. cbv iota.
  replace (-1 + Z.of_nat (length l + 1))%Z with (Z.of_nat (length l)) by lia.
  destruct (Z.ltb_spec (Z.of_nat (length l)) 0); [lia|].
  rewrite Nat2Z.id, nth_error_app2, Nat.sub_diag by lia. reflexivity.
Qed.

Lemma list_getitem_minus_one {A : Type} (l : list A) (d : A) :
  nonempty l = true -> list_getitem l (-1) = inr (last l d).
Proof.
  intros H. destruct (exists_last (l := l)) as [l' [x ->]].
  - intros ->. discriminate.
  - apply list_getitem_last.
Qed.

Lemma scan_events_returns (events : list dict) :
  exists r, scan_events events = inr r.
Proof.
  induction events as [|event rest [r IH]]; cbn [scan_events].
  - now exists None.
  - rewrite extract_text_returns. cbn [bind].
    destruct (first_marker FRAMEWORK_MARKERS (lower (event_text event))) as [m|].
    + now exists (Some m).
    + now exists r.
Qed.

Lemma find_framework_returns (d : Deployment) (events : list dict) :
  exists r, find_framework d events = inr r.
Proof.
  unfold find_framework. destruct (truthy_opt (framework d)).
  - now exists (framework d).
  - apply scan_events_returns.
Qed.

Lemma derive_insights_returns (d : Deployment) (events : list dict) :
  exists fw,
    find_framework d events = inr fw /\
    derive_insights d events =
    inr {| root_cause := last (error_lines events) NO_ERROR_FOUND;
           missing_envs := env_lines events;
           missing_dependencies := dependency_lines events;
           insights_framework := fw;
           build_status := state d;
           recommendations :=
             BASELINE_1 ::
             ((if nonempty (dependency_lines events) then [DEPENDENCY_REMEDIATION] else [])
              ++ (if nonempty (env_lines events) then [ENV_REMEDIATION] else [])
              ++ [BASELINE_2; BASELINE_3])%list |}.
Proof.
  destruct (find_framework_returns d events) as [fw Hfw].
  exists fw. split; [exact Hfw|].
  unfold derive_insights. rewrite event_lines_returns. simpl.
  rewrite !detect_patterns_filter, !filter_mentions_truthy by reflexivity.
  fold (error_lines events) (env_lines events) (dependency_lines events).
  rewrite Hfw.
  destruct (nonempty (error_lines events)) eqn:Herr.
  - rewrite (list_getitem_minus_one _ NO_ERROR_FOUND Herr). simpl.
    destruct (nonempty (env_lines events)), (nonempty (dependency_lines events));
      reflexivity.
  - destruct (error_lines events); [|discriminate]. simpl.
    destruct (nonempty (env_lines events)), (nonempty (dependency_lines events));
      reflexivity.
Qed.

(** ** Runs of the script *)

Lemma main_after_credentials (w : World) (token project : string) :
  credentials w token project ->
  main w [] =
  try_api (list_deployments w token project (getenv w "VERCEL_TEAM_ID"))
    (fun exc => print (ICON_CROSS ++ " " ++ exc) ;;; io_ret 1%Z)
    (fun deployments =>
       if negb (nonempty deployments) then
         print (ICON_CROSS ++ " " ++ NO_DEPLOYMENTS) ;;; io_ret 1%Z
       else
         latest <~ lift (list_getitem deployments 0) ;;
         print (ICON_LINK ++ " Latest deployment: " ++ uid latest
                ++ " | State: " ++ state latest) ;;;
         try_api (fetch_events w token (uid latest) (getenv w "VERCEL_TEAM_ID"))
           (fun exc => print (ICON_CROSS ++ " " ++ exc) ;;; io_ret 1%Z)
           (fun events =>
              insights <~ lift (derive_insights latest events) ;;
              summary <~ format_summary (clock w) insights latest ;;
              print "" ;;;
              print summary ;;;
              io_ret 0%Z)) [].
Proof.
  intros [Ht [Htt [Hp Hpt]]].
  unfold main, io_bind at 1, getenv_or_exit at 1. rewrite Ht, Htt.
  unfold io_ret at 1. unfold io_bind at 1, getenv_or_exit at 1. rewrite Hp, Hpt.
  reflexivity.
Qed.

Lemma format_summary_returns (c : PyTime.clock) (i : LogInsights) (d : Deployment)
  (tm : PyTime.struct_time) (out : console) :
  PyTime.localtime c (created_at d) = inr tm ->
  format_summary c i d out = (out, inr (report_layout (PyTime.strftime tm) i d)).
Proof.
  intros Htm. unfold format_summary, io_bind, lift. rewrite Htm.
  unfold io_ret, ret, report_layout.
  generalize (header (PyTime.strftime tm) d), (status_line i), (root_cause_line i),
    (env_section i), (dependency_section i), (fix_section i).
  intros h st r e dp f.
  destruct (nonempty (missing_envs i)), (nonempty (missing_dependencies i));
    reflexivity.
Qed.

Lemma format_summary_raises (c : PyTime.clock) (i : LogInsights) (d : Deployment)
  (e : exn) (out : console) :
  PyTime.localtime c (created_at d) = inl e ->
  format_summary c i d out = (out, inl e).
Proof.
  intros Htm. unfold format_summary, io_bind, lift. now rewrite Htm.
Qed.

Lemma localtime_raises (c : PyTime.clock) (t : Q) (e : exn) :
  PyTime.localtime c t = inl e -> e = OverflowError \/ e = OSError.
Proof.
  unfold PyTime.localtime.
  destruct ((Qfloor t <? PyTime.time_t_min c) || (PyTime.time_t_max c <? Qfloor t))%Z.
  - intros H. left. now injection H.
  - destruct (PyTime.zone c (Qfloor t)); [discriminate|].
    intros H. right. now injection H.
Qed.

(** A run whose two requests are answered, up to the rendering. *)
Lemma run_until_rendering (w : World) (token project : string)
  (latest : Deployment) (rest : list Deployment) (events : list dict) (i : LogInsights) :
  credentials w token project ->
  list_deployments w token project (getenv w "VERCEL_TEAM_ID") = inr (latest :: rest) ->
  fetch_events w token (uid latest) (getenv w "VERCEL_TEAM_ID") = inr events ->
  derive_insights latest events = inr i ->
  run w =
  match PyTime.localtime (clock w) (created_at latest) with
  | inr tm => ([announce latest; ""; report_layout (PyTime.strftime tm) i latest], inr 0%Z)
  | inl e => ([announce latest], inl e)
  end.
Proof.
  intros Hcred Hlist Hevents Hi.
  unfold run. rewrite (main_after_credentials w token project Hcred), Hlist.
  unfold try_api at 1. cbn [nonempty negb].
  unfold io_bind at 1. change (list_getitem (latest :: rest) 0) with (@inr exn _ latest).
  unfold lift at 1. unfold io_bind at 1. unfold print at 1.
  rewrite Hevents. unfold try_api. unfold io_bind at 1. rewrite Hi.
  unfold lift at 1. unfold io_bind at 1.
  destruct (PyTime.localtime (clock w) (created_at latest)) as [e|tm] eqn:Htm.
  - rewrite (format_summary_raises _ _ _ e _ Htm).
    destruct (localtime_raises _ _ _ Htm) as [-> | ->]; reflexivity.
  - rewrite (format_summary_returns _ _ _ tm _ Htm). reflexivity.
Qed.

(** ** Root cause *)

Lemma mentions_strip_nonempty (phrases : list string) (line : string) :
  forallb visible_start phrases = true ->
  mentions phrases line = true ->
  strip line <> "".
Proof.
  intros Hvis Hm. apply existsb_exists in Hm. destruct Hm as [p [Hin Hp]].
  rewrite forallb_forall in Hvis. specialize (Hvis p Hin).
  destruct p as [|c p]; [discriminate|]. simpl in Hvis.
  apply (strip_nonempty_of_contains c p); [|exact Hp].
  now destruct (isspace c).
Qed.

Lemma last_Forall {A : Type} (P : A -> Prop) (l : list A) (d : A) :
  Forall P l -> P d -> P (last l d).
Proof.
  intros Hl Hd. induction Hl as [|x l Hx Hl IH]; [exact Hd|].
  destruct l; [exact Hx | exact IH].
Qed.


Lemma filter_none {A : Type} (f : A -> bool) (l : list A) :
  (forall x, In x l -> f x = false) -> filter f l = [].
Proof.
  induction l as [|x l IH]; intros H; simpl; [reflexivity|].
  rewrite (H x (or_introl eq_refl)). apply IH. intros y Hy. apply H. now right.
Qed.

Lemma error_lines_nonempty_strings (events : list dict) :
  Forall (fun s => s <> "") (error_lines events).
Proof.
  unfold error_lines. apply Forall_forall. intros s Hs.
  apply in_map_iff in Hs. destruct Hs as [line [<- Hline]].
  apply filter_In in Hline. destruct Hline as [_ Hm].
  now apply (mentions_strip_nonempty ERROR_PATTERNS).
Qed.




(** ** Recommendations *)

(** C3: the recommendations are the first baseline entry, then the
    dependency remediation when [missing_dependencies] is not empty, then
    the environment remediation when [missing_envs] is not empty, then the
    other two baseline entries. *)
Theorem recommendations_order :
  forall (d : Deployment) (events : list dict),
  exists i,
    derive_insights d events = inr i
    /\ recommendations i =
       (BASELINE_1 ::
        (if nonempty (missing_dependencies i) then [DEPENDENCY_REMEDIATION] else [])
        ++ (if nonempty (missing_envs i) then [ENV_REMEDIATION] else [])
        ++ [BASELINE_2; BASELINE_3])%list
    /\ (missing_envs i = [] -> missing_dependencies i = [] ->
        recommendations i = [BASELINE_1; BASELINE_2; BASELINE_3])
    /\ (missing_envs i <> [] -> missing_dependencies i = [] ->
        recommendations i = [BASELINE_1; ENV_REMEDIATION; BASELINE_2; BASELINE_3])
    /\ (missing_envs i = [] -> missing_dependencies i <> [] ->
        recommendations i = [BASELINE_1; DEPENDENCY_REMEDIATION; BASELINE_2; BASELINE_3])
    /\ (missing_envs i <> [] -> missing_dependencies i <> [] ->
        recommendations i =
        [BASELINE_1; DEPENDENCY_REMEDIATION; ENV_REMEDIATION; BASELINE_2; BASELINE_3]).
Proof.
  intros d events.
  destruct (derive_insights_returns d events) as [fw [_ Hi]].
  eexists. split; [exact Hi|].
  cbn [recommendations missing_envs missing_dependencies].
  destruct (env_lines events), (dependency_lines events); simpl;
    repeat split; intros; congruence.
Qed.

Lemma recommendations_order_witness :
  exists i,
    derive_insights sample_deployment
      [payload_event "Error: Cannot find module 'sharp'";
       message_event "STRIPE_KEY is not set"] = inr i
    /\ recommendations i =
       [BASELINE_1; DEPENDENCY_REMEDIATION; ENV_REMEDIATION; BASELINE_2; BASELINE_3].
Proof.
  destruct (recommendations_order sample_deployment
              [payload_event "Error: Cannot find module 'sharp'";
               message_event "STRIPE_KEY is not set"])
    as [i [Hi [_ [_ [_ [_ Hboth]]]]]].
  exists i. split; [exact Hi|].
  apply Hboth; injection Hi as <-; discriminate.
Defined.

(** ** Pattern classifier *)

Example detect_patterns_two_phrases_one_entry :
  detect_patterns
    ["Build started"; "  Error: build FAILED  "; ""; "error: cannot fail twice"]
    ERROR_PATTERNS
  = ["Error: build FAILED"; "error: cannot fail twice"].
Proof. reflexivity. Qed.




(** ** Selection of the latest deployment *)

Section SortFacts.

Context {A : Type} (key : A -> Q).

Lemma key_lt_spec (x y : A) : key_lt key x y = true <-> (key x < key y)%Q.
Proof.
  unfold key_lt. rewrite negb_true_iff. split.
  - intros H. apply Qnot_le_lt. intros Hle.
    apply Qle_bool_iff in Hle. congruence.
  - intros H. destruct (Qle_bool (key y) (key x)) eqn:E; [|reflexivity].
    apply Qle_bool_iff in E. exfalso. exact (Qlt_not_le _ _ H E).
Qed.

Lemma insert_stable_In (x y : A) (l : list A) :
  In y (insert_stable key x l) <-> x = y \/ In y l.
Proof.
  induction l as [|z l IH]; simpl; [tauto|].
  destruct (key_lt key z x); simpl; [rewrite IH|]; tauto.
Qed.

Lemma stable_sort_In (y : A) (l : list A) :
  In y (stable_sort key l) <-> In y l.
Proof.
  induction l as [|x l IH]; simpl; [tauto|].
  rewrite insert_stable_In, IH. tauto.
Qed.

Lemma stable_sort_nonempty (l : list A) : l <> [] -> stable_sort key l <> [].
Proof.
  destruct l as [|x l]; [congruence|]. intros _ H.
  assert (Hin : In x (stable_sort key (x :: l))) by (apply stable_sort_In; now left).
  rewrite H in Hin. exact Hin.
Qed.

Lemma last_cons (z d0 : A) (l : list A) : l <> [] -> last (z :: l) d0 = last l d0.
Proof. destruct l; [congruence | reflexivity]. Qed.

Lemma insert_stable_nonempty (x : A) (l : list A) : insert_stable key x l <> [].
Proof.
  intros H. assert (Hin : In x (insert_stable key x l)) by (apply insert_stable_In; now left).
  rewrite H in Hin. exact Hin.
Qed.

(** Inserting into a list whose last element is a largest one. *)
Lemma last_insert_stable (x d0 : A) (l : list A) :
  l <> [] ->
  (forall y, In y l -> (key y <= key (last l d0))%Q) ->
  last (insert_stable key x l) d0
  = if key_lt key (last l d0) x then x else last l d0.
Proof.
  induction l as [|z l IH]; [congruence|]. intros _ Hmax.
  destruct l as [|z' l].
  - simpl. destruct (key_lt key z x); reflexivity.
  - remember (z' :: l) as t eqn:Et.
    assert (Hne : t <> []) by (subst; congruence).
    rewrite (last_cons z d0 t Hne) in *.
    specialize (IH Hne (fun y Hy => Hmax y (or_intror Hy))).
    cbn [insert_stable]. destruct (key_lt key z x) eqn:Ezx.
    + rewrite last_cons by apply insert_stable_nonempty. exact IH.
    + rewrite last_cons by congruence. rewrite (last_cons z d0 t Hne).
      destruct (key_lt key (last t d0) x) eqn:Edx; [|reflexivity].
      exfalso. apply key_lt_spec in Edx.
      assert (Hzx : ~ (key z < key x)%Q).
      { intros H. apply key_lt_spec in H. congruence. }
      apply Hzx. apply Qle_lt_trans with (key (last t d0)); [|exact Edx].
      apply Hmax. now left.
Qed.

(** The last element of the sorted list is the last of the largest elements
    of the input. *)
Lemma stable_sort_last (m : list A) (d0 : A) :
  m <> [] ->
  exists m1 d m2,
    m = (m1 ++ d :: m2)%list
    /\ last (stable_sort key m) d0 = d
    /\ Forall (fun y => (key y <= key d)%Q) m1
    /\ Forall (fun y => (key y < key d)%Q) m2.
Proof.
  induction m as [|x m IH]; [congruence|]. intros _.
  destruct m as [|x' m].
  - exists [], x, []. repeat split; constructor.
  - destruct IH as [m1 [d [m2 [Hm [Hlast [H1 H2]]]]]]; [congruence|].
    assert (Hmax : forall y, In y (stable_sort key (x' :: m)) ->
                             (key y <= key (last (stable_sort key (x' :: m)) d0))%Q).
    { intros y Hy. rewrite Hlast. apply (proj1 (stable_sort_In y _)) in Hy.
      rewrite Hm in Hy.
      apply in_app_or in Hy. destruct Hy as [Hy | [<- | Hy]].
      - rewrite Forall_forall in H1. now apply H1.
      - apply Qle_refl.
      - rewrite Forall_forall in H2. now apply Qlt_le_weak, H2. }
    cbn [stable_sort].
    change (insert_stable key x' (stable_sort key m)) with (stable_sort key (x' :: m)).
    rewrite last_insert_stable; [|apply stable_sort_nonempty; congruence | exact Hmax].
    rewrite Hlast. destruct (key_lt key d x) eqn:Edx.
    + apply key_lt_spec in Edx.
      exists [], x, (x' :: m). repeat split; [constructor|].
      apply Forall_forall. intros y Hy.
      apply Qle_lt_trans with (key d); [|exact Edx].
      rewrite <- Hlast. apply Hmax. now apply (proj2 (stable_sort_In y _)).
    + exists (x :: m1), d, m2. rewrite Hm. repeat split; [|exact H2].
      constructor; [|exact H1].
      apply Qnot_lt_le. intros H. apply key_lt_spec in H. congruence.
Qed.

Lemma list_getitem_rev_0 (l : list A) (d0 : A) :
  l <> [] -> list_getitem (rev l) 0 = inr (last l d0).
Proof.
  intros Hne. destruct (exists_last Hne) as [l' [x ->]].
  rewrite rev_app_distr, last_last. reflexivity.
Qed.

(** The head of the list sorted with [reverse=True] is the first of the
    largest elements of the input. *)
Lemma list_sort_reverse_head (l : list A) :
  l <> [] ->
  exists before latest after,
    l = (before ++ latest :: after)%list
    /\ list_getitem (list_sort key true l) 0 = inr latest
    /\ Forall (fun y => (key y < key latest)%Q) before
    /\ Forall (fun y => (key y <= key latest)%Q) after.
Proof.
  intros Hne. destruct l as [|d0 l0] eqn:El; [congruence|]. rewrite <- El in *.
  assert (Hrev : rev l <> []).
  { intros H. apply (f_equal (@rev A)) in H. rewrite rev_involutive in H. now simpl in H. }
  destruct (stable_sort_last (rev l) d0 Hrev) as [m1 [d [m2 [Hm [Hlast [H1 H2]]]]]].
  exists (rev m2), d, (rev m1). repeat split.
  - rewrite <- (rev_involutive l), Hm, rev_app_distr. simpl.
    now rewrite <- app_assoc.
  - unfold list_sort.
    rewrite (list_getitem_rev_0 _ d0) by now apply stable_sort_nonempty.
    now rewrite Hlast.
  - now apply Forall_rev.
  - now apply Forall_rev.
Qed.

End SortFacts.

Example list_sort_example :
  map uid
    (list_sort created_at true
       [mkDeployment "A" "READY" (100 # 1) None;
        mkDeployment "B" "ERROR" (200 # 1) None;
        mkDeployment "C" "READY" (400 # 2) None;
        mkDeployment "D" "READY" (150 # 1) None])
  = ["B"; "C"; "D"; "A"].
Proof. reflexivity. Qed.

Lemma list_getitem_0_cons {A : Type} (l : list A) (x : A) :
  list_getitem l 0 = inr x -> exists rest, l = x :: rest.
Proof.
  destruct l as [|y l]; [discriminate|].
  intros H. injection H as ->. now exists l.
Qed.

(** C2: from a non-empty response, [list_deployments] returns a list whose
    first entry has the largest [created_at] and is, of the deployments
    with that [created_at], the one that came first in the response; it is
    the deployment [main] announces, reads the events of and, when
    [time.localtime] accepts its creation time, reports on (the report is
    stated for a log of ASCII text). *)
Theorem latest_is_first_of_the_newest :
  forall (w : World) (token project : string) (ds : list Deployment),
    credentials w token project ->
    (forall r, deployments_api w r = Payload ds) ->
    ds <> [] ->
    exists before latest after rest,
      ds = (before ++ latest :: after)%list
      /\ Forall (fun d => (created_at d < created_at latest)%Q) before
      /\ Forall (fun d => (created_at d <= created_at latest)%Q) after
      /\ list_deployments w token project (getenv w "VERCEL_TEAM_ID")
         = inr (latest :: rest)
      /\ list_getitem (latest :: rest) 0 = inr latest
      /\ forall events tm,
           fetch_events w token (uid latest) (getenv w "VERCEL_TEAM_ID") = inr events ->
           ascii_log events latest ->
           PyTime.localtime (clock w) (created_at latest) = inr tm ->
           exists i,
             derive_insights latest events = inr i
             /\ run w =
                ([ICON_LINK ++ " Latest deployment: " ++ uid latest
                  ++ " | State: " ++ state latest;
                  "";
                  report_layout (PyTime.strftime tm) i latest], inr 0%Z).
Proof.
  intros w token project ds Hcred Hapi Hne.
  destruct (list_sort_reverse_head created_at ds Hne)
    as [before [latest [after [Hsplit [Hhead [Hb Ha]]]]]].
  destruct (list_getitem_0_cons _ _ Hhead) as [rest Hsorted].
  assert (Hlist : list_deployments w token project (getenv w "VERCEL_TEAM_ID")
                  = inr (latest :: rest)).
  { unfold list_deployments, make_request. rewrite Hapi, <- Hsorted. reflexivity. }
  exists before, latest, after, rest.
  repeat split; trivial.
  intros events tm Hevents _ Htm.
  destruct (derive_insights_returns latest events) as [fw [_ Hi]].
  eexists. split; [exact Hi|].
  rewrite (run_until_rendering w token project latest rest events _ Hcred Hlist Hevents Hi).
  now rewrite Htm.
Qed.

Lemma latest_is_first_of_the_newest_witness :
  exists before latest after rest,
    three_deployments = (before ++ latest :: after)%list
    /\ Forall (fun d => (created_at d < created_at latest)%Q) before
    /\ Forall (fun d => (created_at d <= created_at latest)%Q) after
    /\ list_deployments
         (constant_world (Payload three_deployments) (Payload (VList [])))
         "tok_1" "audiojones" None = inr (latest :: rest).
Proof.
  destruct (latest_is_first_of_the_newest
              (constant_world (Payload three_deployments) (Payload (VList [])))
              "tok_1" "audiojones" three_deployments)
    as (before & latest & after & rest & Hsplit & Hb & Ha & Hlist & _).
  - repeat split.
  - intros r. reflexivity.
  - discriminate.
  - exists before, latest, after, rest. repeat split; assumption.
Defined.

(** ** Framework resolution *)








(** ** The empty deployment list *)

Lemma api_error_is_not_no_deployments {A : Type} (api : request -> http_outcome A)
  (u : string) (h p : list (string * string)) :
  failed (api (mkRequest u h p)) = true ->
  exists msg, make_request api u h p = inl (VercelAPIError msg) /\ msg <> NO_DEPLOYMENTS.
Proof.
  unfold make_request. destruct (api (mkRequest u h p)); intros Hf; try discriminate;
    eexists; (split; [reflexivity | discriminate]).
Qed.

Lemma string_app_inv_head (a x y : string) : a ++ x = a ++ y -> x = y.
Proof.
  induction a as [|c a IH]; simpl; [trivial|].
  intros H. injection H as H. now apply IH.
Qed.

(** C6: when the response lists no deployment, the script prints the one
    line ["No deployments found for the specified project."] behind the
    cross mark and exits with status 1: no deployment is announced, no
    event is read and no report is printed.  A failed request also exits
    with status 1, with a line that is never that one. *)
Theorem no_deployments_is_reported :
  forall (w : World) (token project : string),
    credentials w token project ->
    ((forall r, deployments_api w r = Payload []) ->
     run w = ([ICON_CROSS ++ " " ++ NO_DEPLOYMENTS], inr 1%Z))
    /\ ((forall r, failed (deployments_api w r) = true) ->
        exists msg,
          run w = ([ICON_CROSS ++ " " ++ msg], inr 1%Z)
          /\ msg <> NO_DEPLOYMENTS
          /\ run w <> ([ICON_CROSS ++ " " ++ NO_DEPLOYMENTS], inr 1%Z)).
Proof.
  intros w token project Hcred. split.
  - intros Hempty. unfold run. rewrite (main_after_credentials w token project Hcred).
    unfold list_deployments, make_request. rewrite Hempty. reflexivity.
  - intros Hfail.
    assert (Hrun : exists msg,
               run w = ([ICON_CROSS ++ " " ++ msg], inr 1%Z) /\ msg <> NO_DEPLOYMENTS).
    { unfold run. rewrite (main_after_credentials w token project Hcred).
      unfold list_deployments.
      match goal with
      | |- context [make_request ?api ?u ?h ?p] =>
          destruct (api_error_is_not_no_deployments api u h p (Hfail _))
            as [msg [-> Hmsg]]
      end.
      exists msg. split; [reflexivity | exact Hmsg]. }
    destruct Hrun as [msg [Hrun Hmsg]].
    exists msg. repeat split; [exact Hrun | exact Hmsg |].
    rewrite Hrun. intros H. apply Hmsg.
    assert (E : ICON_CROSS ++ " " ++ msg = ICON_CROSS ++ " " ++ NO_DEPLOYMENTS)
      by congruence.
    now apply string_app_inv_head, string_app_inv_head in E.
Qed.

Lemma no_deployments_is_reported_witness :
  run (constant_world (Payload []) (Payload (VList [])))
  = ([ICON_CROSS ++ " " ++ NO_DEPLOYMENTS], inr 1%Z)
  /\ exists msg,
       run (constant_world (HTTPError 403 "Forbidden") (Payload (VList [])))
       = ([ICON_CROSS ++ " " ++ msg], inr 1%Z)
       /\ msg <> NO_DEPLOYMENTS.
Proof.
  split.
  - apply (proj1 (no_deployments_is_reported
                    (constant_world (Payload []) (Payload (VList [])))
                    "tok_1" "audiojones" (conj eq_refl (conj eq_refl (conj eq_refl eq_refl))))).
    intros r. reflexivity.
  - destruct (proj2 (no_deployments_is_reported
                       (constant_world (HTTPError 403 "Forbidden") (Payload (VList [])))
                       "tok_1" "audiojones"
                       (conj eq_refl (conj eq_refl (conj eq_refl eq_refl)))))
      as [msg [Hrun [Hmsg _]]].
    + intros r. reflexivity.
    + exists msg. split; [exact Hrun | exact Hmsg].
Defined.

(** ** Totality of the extraction and of the derivation *)






(** ** The report *)




(** ** Determinism of the report *)

(** C9, as stated, fails: the creation time is printed in the local time
    zone, so the same insights and deployment give two reports in two
    zones.  Here the zones are UTC and UTC+1. *)
Lemma format_summary_depends_on_time_zone :
  format_summary utc sample_insights sample_deployment []
  = ([], inr (report_layout "2023-11-14 22:13:20" sample_insights sample_deployment))
  /\ format_summary (fixed_zone 3600) sample_insights sample_deployment []
     = ([], inr (report_layout "2023-11-14 23:13:20" sample_insights sample_deployment))
  /\ format_summary utc sample_insights sample_deployment []
     <> format_summary (fixed_zone 3600) sample_insights sample_deployment [].
Proof.
  assert (H0 : format_summary utc sample_insights sample_deployment []
               = ([], inr (report_layout "2023-11-14 22:13:20"
                             sample_insights sample_deployment)))
    by (now rewrite (format_summary_returns utc _ _ (PyTime.mkTime 2023 11 14 22 13 20))).
  assert (H1 : format_summary (fixed_zone 3600) sample_insights sample_deployment []
               = ([], inr (report_layout "2023-11-14 23:13:20"
                             sample_insights sample_deployment)))
    by (now rewrite (format_summary_returns (fixed_zone 3600) _ _
                       (PyTime.mkTime 2023 11 14 23 13 20))).
  split; [exact H0|]. split; [exact H1|].
  rewrite H0, H1. intros H.
  assert (E : report_layout "2023-11-14 22:13:20" sample_insights sample_deployment
              = report_layout "2023-11-14 23:13:20" sample_insights sample_deployment)
    by congruence.
  revert E. apply (proj1 (String.eqb_neq _ _)). reflexivity.
Qed.

(** C9 (amended): [format_summary], which could print and could read any
    of the state of the process, prints nothing and reads of it only the
    local time of the creation time stamp: in two states of the process,
    whatever their consoles and their zones elsewhere, that give this time
    stamp the same local time (or refuse it alike), it leaves the console
    as it is and returns the same report (or raises the same exception). *)
Theorem format_summary_deterministic :
  forall (c1 c2 : PyTime.clock) (i : LogInsights) (d : Deployment)
         (out1 out2 : console),
    PyTime.localtime c1 (created_at d) = PyTime.localtime c2 (created_at d) ->
    fst (format_summary c1 i d out1) = out1
    /\ fst (format_summary c2 i d out2) = out2
    /\ snd (format_summary c1 i d out1) = snd (format_summary c2 i d out2).
Proof.
  intros c1 c2 i d out1 out2 Hsame.
  destruct (PyTime.localtime c2 (created_at d)) as [e|tm] eqn:H2.
  - rewrite (format_summary_raises c1 i d e out1 Hsame),
      (format_summary_raises c2 i d e out2 H2). now repeat split.
  - rewrite (format_summary_returns c1 i d tm out1 Hsame),
      (format_summary_returns c2 i d tm out2 H2). now repeat split.
Qed.

Lemma format_summary_deterministic_witness :
  snd (format_summary utc sample_insights sample_deployment [])
  = snd (format_summary summer_until_2001 sample_insights sample_deployment
           ["Latest deployment"]).
Proof.
  apply (format_summary_deterministic utc summer_until_2001 sample_insights
           sample_deployment [] ["Latest deployment"]).
  reflexivity.
Defined.

(** ** The build status in the report *)




(** * Further properties of the script *)

(** ** Event text: which field wins *)

(** X1: a text string in the payload of an event is its text, whatever the
    event holds under ["message"], also when that text is empty; the
    message string is the text only when the payload gives none. *)
Theorem extract_text_precedence :
  forall (event : dict),
    (forall p text,
        Dict.lookup event "payload" = Some (VDict p) ->
        Dict.lookup p "text" = Some (VStr text) ->
        extract_text_from_event event = inr text)
    /\ (forall message,
          (forall p text, Dict.lookup event "payload" = Some (VDict p) ->
                          Dict.lookup p "text" <> Some (VStr text)) ->
          Dict.lookup event "message" = Some (VStr message) ->
          extract_text_from_event event = inr message).
Proof.
  intros event. split.
  - intros p text Hp Ht. unfold extract_text_from_event, Dict.get.
    now rewrite Hp, Ht.
  - intros message Hpayload Hm.
    unfold extract_text_from_event, Dict.get, Dict.mem, Dict.getitem.
    rewrite Hm. cbn [bind ret].
    destruct (Dict.lookup event "payload") as [[| | | | |p]|] eqn:Ep; try reflexivity.
    specialize (Hpayload p).
    destruct (Dict.lookup p "text") as [[| | |text| |]|]; try reflexivity.
    exfalso. exact (Hpayload text eq_refl eq_refl).
Qed.

Lemma extract_text_precedence_witness :
  extract_text_from_event
    [("message", VStr "Error: build failed"); ("payload", VDict [("text", VStr "")])]
  = inr ""
  /\ extract_text_from_event
       [("payload", VDict [("text", VNum (1 # 1))]); ("message", VStr "Error: build failed")]
     = inr "Error: build failed".
Proof.
  split.
  - apply (proj1 (extract_text_precedence _) [("text", VStr "")]); reflexivity.
  - apply (proj2 (extract_text_precedence _)); [|reflexivity].
    intros p text Hp Ht. injection Hp as <-. discriminate Ht.
Defined.

(** ** Pattern classifier: composition and case *)

Lemma mentions_app (ps qs : list string) (line : string) :
  mentions (ps ++ qs)%list line = mentions ps line || mentions qs line.
Proof. unfold mentions. apply existsb_app. Qed.

(** X2: classifying a log made of two parts gives the entries of the first
    part followed by those of the second; the empty log gives no entry and
    so does the empty phrase set. *)
Theorem detect_patterns_concatenation :
  forall (lines1 lines2 patterns : list string),
    detect_patterns (lines1 ++ lines2)%list patterns
    = (detect_patterns lines1 patterns ++ detect_patterns lines2 patterns)%list
    /\ detect_patterns [] patterns = []
    /\ detect_patterns lines1 [] = [].
Proof.
  intros lines1 lines2 patterns. repeat split.
  - now rewrite !detect_patterns_filter, filter_app, map_app.
  - rewrite detect_patterns_filter. now rewrite filter_none.
Qed.

Lemma forall_chars_app (f : ascii -> bool) (a b : string) :
  forall_chars f (a ++ b) = forall_chars f a && forall_chars f b.
Proof.
  induction a as [|c a IH]; simpl; [reflexivity|].
  now rewrite IH, andb_assoc.
Qed.

Lemma lower_char_not_upper (c : ascii) : isupper_char (lower_char c) = false.
Proof. destruct c as [[] [] [] [] [] [] [] []]; reflexivity. Qed.

Lemma lower_has_no_upper (s : string) : has_upper (lower s) = false.
Proof.
  unfold has_upper, lower. apply negb_false_iff.
  induction s as [|c s IH]; simpl; [reflexivity|].
  now rewrite lower_char_not_upper, IH.
Qed.

Lemma upper_phrase_not_contained (p line : string) :
  has_upper p = true -> contains p (lower line) = false.
Proof.
  intros Hp. destruct (contains p (lower line)) eqn:E; [|reflexivity].
  apply contains_spec in E. destruct E as [a [b Hab]].
  pose proof (lower_has_no_upper line) as Hl.
  unfold has_upper in *. rewrite Hab, !forall_chars_app in Hl.
  apply negb_true_iff in Hp. rewrite Hp in Hl.
  now rewrite andb_false_r in Hl.
Qed.

Lemma mentions_without_upper_phrases (patterns : list string) (line : string) :
  mentions (filter (fun p => negb (has_upper p)) patterns) line = mentions patterns line.
Proof.
  unfold mentions. induction patterns as [|p ps IH]; [reflexivity|].
  cbn [filter existsb]. destruct (has_upper p) eqn:Hp; cbn [negb existsb].
  - now rewrite (upper_phrase_not_contained p line Hp), IH.
  - now rewrite IH.
Qed.

(** X3: a phrase that holds an upper-case letter never matches, since it is
    looked for in the lower-cased line: such phrases can be left out of a
    phrase set without changing the result, and alone they give nothing. *)
Theorem upper_case_phrases_never_match :
  forall (lines patterns : list string),
    detect_patterns lines patterns
    = detect_patterns lines (filter (fun p => negb (has_upper p)) patterns)
    /\ (forallb has_upper patterns = true -> detect_patterns lines patterns = []).
Proof.
  intros lines patterns.
  assert (Hsame : detect_patterns lines patterns
                  = detect_patterns lines (filter (fun p => negb (has_upper p)) patterns)).
  { rewrite !detect_patterns_filter. f_equal. apply filter_ext.
    intros line. symmetry. apply mentions_without_upper_phrases. }
  split; [exact Hsame|].
  intros Hall. rewrite Hsame.
  replace (filter (fun p => negb (has_upper p)) patterns) with (@nil string).
  - rewrite detect_patterns_filter. now rewrite filter_none.
  - symmetry. apply filter_none. intros p Hp.
    rewrite forallb_forall in Hall. now rewrite (Hall p Hp).
Qed.

Lemma upper_case_phrases_never_match_witness :
  detect_patterns ["Module not found: 'foo'"; "MODULE NOT FOUND"] ["Module not found"] = [].
Proof.
  apply (proj2 (upper_case_phrases_never_match _ _)). reflexivity.
Defined.

(** ** Insights: what an entry looks like *)

Lemma lstrip_starts_visible (s : string) : starts_visible (lstrip s) = true.
Proof.
  induction s as [|c s IH]; simpl; [reflexivity|].
  destruct (isspace c) eqn:E; [exact IH|]. simpl. now rewrite E.
Qed.

Lemma lstrip_of_visible (s : string) : starts_visible s = true -> lstrip s = s.
Proof.
  destruct s as [|c s]; simpl; [reflexivity|].
  now destruct (isspace c).
Qed.

Lemma rstrip_starts_visible (s : string) :
  starts_visible s = true -> starts_visible (rstrip s) = true.
Proof.
  destruct s as [|c s]; simpl; [reflexivity|].
  destruct (isspace c) eqn:Ec; [discriminate|]. intros _.
  destruct (rstrip s); simpl; now rewrite Ec.
Qed.

Lemma rstrip_idempotent (s : string) : rstrip (rstrip s) = rstrip s.
Proof.
  induction s as [|c s IH]; [reflexivity|].
  cbn [rstrip]. destruct (rstrip s) as [|c' r] eqn:E.
  - destruct (isspace c) eqn:Ec; [reflexivity|]. simpl. now rewrite Ec.
  - cbn [rstrip]. cbn [rstrip] in IH. now rewrite IH.
Qed.

Lemma strip_idempotent (s : string) : strip (strip s) = strip s.
Proof.
  unfold strip. rewrite (lstrip_of_visible (rstrip (lstrip s))).
  - apply rstrip_idempotent.
  - apply rstrip_starts_visible, lstrip_starts_visible.
Qed.

Lemma kept_lines_clean (phrases texts : list string) :
  forallb visible_start phrases = true ->
  Forall clean (map strip (filter (mentions phrases) texts)).
Proof.
  intros Hvis. apply Forall_forall. intros x Hx.
  apply in_map_iff in Hx. destruct Hx as [line [<- Hline]].
  apply filter_In in Hline. destruct Hline as [_ Hm]. split.
  - now apply (mentions_strip_nonempty phrases).
  - apply strip_idempotent.
Qed.

(** X4: in the insights of a log of ASCII text (where [strip] is that of
    Python), the root cause and every entry of [missing_envs] and of
    [missing_dependencies] is a non-empty text with no white space at
    either end. *)
Theorem insights_entries_are_clean :
  forall (d : Deployment) (events : list dict),
  forallb is_ascii (map event_text events) = true ->
  exists i,
    derive_insights d events = inr i
    /\ clean (root_cause i)
    /\ Forall clean (missing_envs i)
    /\ Forall clean (missing_dependencies i).
Proof.
  intros d events _. destruct (derive_insights_returns d events) as [fw [_ Hi]].
  eexists. split; [exact Hi|].
  cbn [root_cause missing_envs missing_dependencies]. repeat split.
  - apply (last_Forall (fun s => s <> "")); [|discriminate].
    apply error_lines_nonempty_strings.
  - apply (last_Forall (fun s => strip s = s)); [|reflexivity].
    eapply Forall_impl; [|apply (kept_lines_clean ERROR_PATTERNS); reflexivity].
    now intros x [_ Hx].
  - now apply kept_lines_clean.
  - now apply kept_lines_clean.
Qed.

Lemma insights_entries_are_clean_witness :
  exists i,
    derive_insights sample_deployment
      [message_event "  Error: API_KEY is not set  "; message_event "ok"] = inr i
    /\ clean (root_cause i)
    /\ Forall clean (missing_envs i)
    /\ Forall clean (missing_dependencies i).
Proof.
  apply insights_entries_are_clean. reflexivity.
Defined.

(** ** Pattern classifier: the case of the log *)

Lemma lower_upper_char (c : ascii) : lower_char (upper_char c) = lower_char c.
Proof. destruct c as [[] [] [] [] [] [] [] []]; reflexivity. Qed.

Lemma isspace_upper_char (c : ascii) : isspace (upper_char c) = isspace c.
Proof. destruct c as [[] [] [] [] [] [] [] []]; reflexivity. Qed.

Lemma lower_upper (s : string) : lower (upper s) = lower s.
Proof.
  unfold lower, upper. induction s as [|c s IH]; simpl; [reflexivity|].
  now rewrite lower_upper_char, IH.
Qed.

Lemma lstrip_upper (s : string) : lstrip (upper s) = upper (lstrip s).
Proof.
  unfold upper. induction s as [|c s IH]; simpl; [reflexivity|].
  rewrite isspace_upper_char. destruct (isspace c); [exact IH | reflexivity].
Qed.

Lemma rstrip_upper (s : string) : rstrip (upper s) = upper (rstrip s).
Proof.
  unfold upper. induction s as [|c s IH]; simpl; [reflexivity|].
  rewrite IH, isspace_upper_char.
  destruct (rstrip s); simpl; [destruct (isspace c)|]; reflexivity.
Qed.

Lemma strip_upper (s : string) : strip (upper s) = upper (strip s).
Proof. unfold strip. now rewrite lstrip_upper, rstrip_upper. Qed.

Lemma filter_map_comm {A B : Type} (f : B -> bool) (g : A -> B) (l : list A) :
  filter f (map g l) = map g (filter (fun a => f (g a)) l).
Proof.
  induction l as [|a l IH]; simpl; [reflexivity|].
  destruct (f (g a)); simpl; now rewrite IH.
Qed.

(** X5: matching does not depend on the case of the log: for lines of
    ASCII text, the log in upper case gives the entries of the log as it
    is, in upper case. *)
Theorem detect_patterns_ignores_case :
  forall (lines patterns : list string),
    forallb is_ascii lines = true ->
    detect_patterns (map upper lines) patterns
    = map upper (detect_patterns lines patterns).
Proof.
  intros lines patterns _.
  rewrite !detect_patterns_filter, filter_map_comm, !map_map.
  rewrite (filter_ext (fun a => mentions patterns (upper a)) (mentions patterns)).
  - apply map_ext. intros line. apply strip_upper.
  - intros line. unfold mentions. now rewrite lower_upper.
Qed.

Lemma detect_patterns_ignores_case_witness :
  detect_patterns (map upper ["  npm err! Missing script: build"; "done"]) ERROR_PATTERNS
  = ["NPM ERR! MISSING SCRIPT: BUILD"].
Proof.
  rewrite detect_patterns_ignores_case; reflexivity.
Defined.

(** ** The deployment list: order *)

Section SortOrder.

Context {A : Type} (key : A -> Q).

Lemma insert_stable_permutation (x : A) (l : list A) :
  Permutation (insert_stable key x l) (x :: l).
Proof.
  induction l as [|y l IH]; simpl; [reflexivity|].
  destruct (key_lt key y x); [|reflexivity].
  rewrite IH. apply perm_swap.
Qed.

Lemma stable_sort_permutation (l : list A) : Permutation (stable_sort key l) l.
Proof.
  induction l as [|x l IH]; simpl; [reflexivity|].
  rewrite insert_stable_permutation. now constructor.
Qed.

Lemma list_sort_permutation (reverse : bool) (l : list A) :
  Permutation (list_sort key reverse l) l.
Proof.
  unfold list_sort. destruct reverse; [|apply stable_sort_permutation].
  rewrite <- Permutation_rev, stable_sort_permutation. symmetry. apply Permutation_rev.
Qed.

Lemma insert_stable_sorted (x : A) (l : list A) :
  StronglySorted (ascending key) l -> StronglySorted (ascending key) (insert_stable key x l).
Proof.
  induction 1 as [|y l Hl IH Hy]; simpl.
  - repeat constructor.
  - destruct (key_lt key y x) eqn:E.
    + constructor; [exact IH|].
      apply Forall_forall. intros z Hz.
      apply (proj1 (insert_stable_In key x z l)) in Hz. destruct Hz as [<- | Hz].
      * apply Qlt_le_weak. now apply key_lt_spec.
      * rewrite Forall_forall in Hy. now apply Hy.
    + assert (Hxy : (key x <= key y)%Q).
      { apply Qnot_lt_le. intros H. apply key_lt_spec in H. congruence. }
      constructor; [now constructor|].
      constructor; [exact Hxy|].
      eapply Forall_impl; [|exact Hy]. intros z Hz.
      unfold ascending in *. now apply Qle_trans with (key y).
Qed.

Lemma stable_sort_sorted (l : list A) : StronglySorted (ascending key) (stable_sort key l).
Proof.
  induction l as [|x l IH]; simpl; [constructor|].
  now apply insert_stable_sorted.
Qed.

Lemma sorted_snoc (R : A -> A -> Prop) (l : list A) (x : A) :
  StronglySorted R l -> Forall (fun y => R y x) l -> StronglySorted R (l ++ [x]).
Proof.
  induction 1 as [|y l Hl IH Hy]; intros Hx; simpl.
  - repeat constructor.
  - inversion Hx as [|? ? Hyx Hlx]; subst. constructor; [now apply IH|].
    apply Forall_app. split; [exact Hy | now constructor].
Qed.

Lemma sorted_rev (l : list A) :
  StronglySorted (ascending key) l -> StronglySorted (descending key) (rev l).
Proof.
  induction 1 as [|y l Hl IH Hy]; simpl; [constructor|].
  apply sorted_snoc; [exact IH|].
  apply Forall_rev. exact Hy.
Qed.

Lemma filter_rev (f : A -> bool) (l : list A) : filter f (rev l) = rev (filter f l).
Proof.
  induction l as [|x l IH]; simpl; [reflexivity|].
  rewrite filter_app, IH. simpl. destruct (f x); simpl; [reflexivity|].
  now rewrite app_nil_r.
Qed.

Lemma insert_stable_stable (t : Q) (x : A) (l : list A) :
  filter (at_time key t) (insert_stable key x l) = filter (at_time key t) (x :: l).
Proof.
  induction l as [|y l IH]; [reflexivity|].
  cbn [insert_stable]. destruct (key_lt key y x) eqn:E; [|reflexivity].
  cbn [filter] in *. rewrite IH.
  destruct (at_time key t x) eqn:Ex; [|reflexivity].
  destruct (at_time key t y) eqn:Ey; [|reflexivity].
  exfalso. apply key_lt_spec in E. unfold at_time in *.
  apply Qeq_bool_iff in Ex, Ey. rewrite Ex, Ey in E.
  exact (Qlt_irrefl _ E).
Qed.

Lemma stable_sort_stable (t : Q) (l : list A) :
  filter (at_time key t) (stable_sort key l) = filter (at_time key t) l.
Proof.
  induction l as [|x l IH]; [reflexivity|].
  cbn [stable_sort]. rewrite insert_stable_stable. cbn [filter]. now rewrite IH.
Qed.

Lemma list_sort_stable (t : Q) (reverse : bool) (l : list A) :
  filter (at_time key t) (list_sort key reverse l) = filter (at_time key t) l.
Proof.
  unfold list_sort. destruct reverse; [|apply stable_sort_stable].
  now rewrite filter_rev, stable_sort_stable, filter_rev, rev_involutive.
Qed.

End SortOrder.

(** X6: [list_deployments] returns every deployment of the response, once
    each, ordered from the newest to the oldest. *)
Theorem list_deployments_newest_first :
  forall (w : World) (token project : string) (team : option string)
         (ds : list Deployment),
    (forall r, deployments_api w r = Payload ds) ->
    exists sorted,
      list_deployments w token project team = inr sorted
      /\ Permutation ds sorted
      /\ StronglySorted (fun a b => (created_at b <= created_at a)%Q) sorted.
Proof.
  intros w token project team ds Hapi.
  exists (list_sort created_at true ds). repeat split.
  - unfold list_deployments, make_request. now rewrite Hapi.
  - symmetry. apply list_sort_permutation.
  - unfold list_sort. apply (sorted_rev created_at), stable_sort_sorted.
Qed.

Lemma list_deployments_newest_first_witness :
  exists sorted,
    list_deployments (constant_world (Payload three_deployments) InvalidJSON)
      "tok_1" "audiojones" (Some "team_9") = inr sorted
    /\ Permutation three_deployments sorted
    /\ StronglySorted (fun a b => (created_at b <= created_at a)%Q) sorted.
Proof.
  apply list_deployments_newest_first. intros r. reflexivity.
Defined.

(** X7: the sort of [list_deployments] is stable: the deployments created
    at one and the same time come out in the order of the response. *)
Theorem list_deployments_keeps_order_of_ties :
  forall (w : World) (token project : string) (team : option string)
         (ds : list Deployment),
    (forall r, deployments_api w r = Payload ds) ->
    exists sorted,
      list_deployments w token project team = inr sorted
      /\ forall t,
           filter (fun d => Qeq_bool (created_at d) t) sorted
           = filter (fun d => Qeq_bool (created_at d) t) ds.
Proof.
  intros w token project team ds Hapi.
  exists (list_sort created_at true ds). split.
  - unfold list_deployments, make_request. now rewrite Hapi.
  - intros t. apply (list_sort_stable created_at t true ds).
Qed.

Lemma list_deployments_keeps_order_of_ties_witness :
  exists sorted,
    list_deployments (constant_world (Payload three_deployments) InvalidJSON)
      "tok_1" "audiojones" None = inr sorted
    /\ map uid (filter (fun d => Qeq_bool (created_at d) (200 # 1)) sorted) = ["B"; "C"].
Proof.
  destruct (list_deployments_keeps_order_of_ties
              (constant_world (Payload three_deployments) InvalidJSON)
              "tok_1" "audiojones" None three_deployments (fun _ => eq_refl))
    as [sorted [Hlist Hties]].
  exists sorted. split; [exact Hlist|]. now rewrite Hties.
Defined.

(** ** The script: credentials, failed requests, malformed documents *)

Lemma getenv_or_exit_unset (w : World) (key : string) (out : console) :
  truthy_opt (getenv w key) = false ->
  getenv_or_exit w key out = ((out ++ [NOT_SET key])%list, inl (SystemExit 1)).
Proof.
  unfold getenv_or_exit, truthy_opt. intros H.
  destruct (getenv w key) as [v|]; [rewrite H|]; reflexivity.
Qed.

Lemma getenv_or_exit_set (w : World) (key : string) (out : console) :
  truthy_opt (getenv w key) = true ->
  exists v, getenv w key = Some v /\ truthy v = true
            /\ getenv_or_exit w key out = (out, inr v).
Proof.
  unfold getenv_or_exit, truthy_opt. intros H.
  destruct (getenv w key) as [v|]; [|discriminate].
  exists v. rewrite H. now repeat split.
Qed.

(** X8: without [VERCEL_TOKEN] (unset or empty) the script prints that it
    is not set and exits with status 1; with it and without
    [VERCEL_PROJECT_NAME] it does the same for that one.  The outcome is
    the same in every world, also in those where a request would fail or
    raise: nothing of the network is read on these paths. *)
Theorem unset_variable_stops_the_run :
  forall (w : World),
    (truthy_opt (getenv w "VERCEL_TOKEN") = false ->
     run w = ([NOT_SET "VERCEL_TOKEN"], inr 1%Z))
    /\ (truthy_opt (getenv w "VERCEL_TOKEN") = true ->
        truthy_opt (getenv w "VERCEL_PROJECT_NAME") = false ->
        run w = ([NOT_SET "VERCEL_PROJECT_NAME"], inr 1%Z)).
Proof.
  intros w. split.
  - intros Ht. unfold run, main, io_bind at 1.
    now rewrite (getenv_or_exit_unset w "VERCEL_TOKEN" [] Ht).
  - intros Ht Hp. unfold run, main, io_bind at 1.
    destruct (getenv_or_exit_set w "VERCEL_TOKEN" [] Ht) as [v [_ [_ ->]]].
    unfold io_bind at 1.
    now rewrite (getenv_or_exit_unset w "VERCEL_PROJECT_NAME" [] Hp).
Qed.

Lemma unset_variable_stops_the_run_witness :
  run {| getenv := fun key => if String.eqb key "VERCEL_TOKEN" then Some "tok_1" else Some "";
         deployments_api := fun _ => Payload [sample_deployment];
         events_api := fun _ => Payload (VList []);
         clock := utc |}
  = ([NOT_SET "VERCEL_PROJECT_NAME"], inr 1%Z).
Proof.
  apply (proj2 (unset_variable_stops_the_run _)); reflexivity.
Defined.

Lemma run_events_raise (w : World) (token project : string)
  (latest : Deployment) (rest : list Deployment) (e : exn) :
  credentials w token project ->
  list_deployments w token project (getenv w "VERCEL_TEAM_ID") = inr (latest :: rest) ->
  fetch_events w token (uid latest) (getenv w "VERCEL_TEAM_ID") = inl e ->
  run w =
  match e with
  | VercelAPIError msg => ([announce latest; ICON_CROSS ++ " " ++ msg], inr 1%Z)
  | SystemExit status => ([announce latest], inr status)
  | _ => ([announce latest], inl e)
  end.
Proof.
  intros Hcred Hlist Hevents.
  unfold run. rewrite (main_after_credentials w token project Hcred), Hlist.
  unfold try_api at 1. cbn [nonempty negb].
  unfold io_bind at 1. change (list_getitem (latest :: rest) 0) with (@inr exn _ latest).
  unfold lift at 1. unfold io_bind at 1. unfold print at 1.
  rewrite Hevents. destruct e; reflexivity.
Qed.

Lemma run_list_raise (w : World) (token project msg : string) :
  credentials w token project ->
  list_deployments w token project (getenv w "VERCEL_TEAM_ID") = inl (VercelAPIError msg) ->
  run w = ([ICON_CROSS ++ " " ++ msg], inr 1%Z).
Proof.
  intros Hcred Hlist.
  unfold run. rewrite (main_after_credentials w token project Hcred), Hlist.
  reflexivity.
Qed.

Lemma run_list_empty (w : World) (token project : string) :
  credentials w token project ->
  list_deployments w token project (getenv w "VERCEL_TEAM_ID") = inr [] ->
  run w = ([ICON_CROSS ++ " " ++ NO_DEPLOYMENTS], inr 1%Z).
Proof.
  intros Hcred Hlist.
  unfold run. rewrite (main_after_credentials w token project Hcred), Hlist.
  reflexivity.
Qed.

Lemma make_request_failed {A : Type} (api : request -> http_outcome A)
  (u : string) (h p : list (string * string)) :
  failed (api (mkRequest u h p)) = true ->
  exists msg, make_request api u h p = inl (VercelAPIError msg).
Proof.
  unfold make_request. destruct (api (mkRequest u h p)); try discriminate;
    intros _; eexists; reflexivity.
Qed.

(** X9: when the request for the events fails in one of the ways
    [make_request] wraps (an HTTP error, a host that cannot be reached, a
    body that is no JSON), the script has announced the latest deployment,
    prints the message of the failure behind the cross mark and exits with
    status 1, without a report; when it raises what [make_request] does
    not wrap (a socket error while reading, a body that is not UTF-8), the
    run stops on that exception after the announcement. *)
Theorem failed_event_request_is_reported :
  forall (w : World) (token project : string) (latest : Deployment)
         (rest : list Deployment),
    credentials w token project ->
    list_deployments w token project (getenv w "VERCEL_TEAM_ID") = inr (latest :: rest) ->
    ((forall r, failed (events_api w r) = true) ->
     exists msg,
       fetch_events w token (uid latest) (getenv w "VERCEL_TEAM_ID")
       = inl (VercelAPIError msg)
       /\ run w = ([announce latest; ICON_CROSS ++ " " ++ msg], inr 1%Z))
    /\ (forall e,
          (forall r, events_api w r = Raises e) ->
          e = OSError \/ e = UnicodeDecodeError ->
          run w = ([announce latest], inl e)).
Proof.
  intros w token project latest rest Hcred Hlist. split.
  - intros Hfail.
    assert (Hev : exists msg,
               fetch_events w token (uid latest) (getenv w "VERCEL_TEAM_ID")
               = inl (VercelAPIError msg)).
    { unfold fetch_events.
      match goal with
      | |- context [make_request ?api ?u ?h ?p] =>
          destruct (make_request_failed api u h p (Hfail _)) as [msg ->]
      end.
      now exists msg. }
    destruct Hev as [msg Hev]. exists msg. split; [exact Hev|].
    now rewrite (run_events_raise w token project latest rest _ Hcred Hlist Hev).
  - intros e Hraise He.
    assert (Hev : fetch_events w token (uid latest) (getenv w "VERCEL_TEAM_ID") = inl e).
    { unfold fetch_events, make_request. now rewrite Hraise. }
    rewrite (run_events_raise w token project latest rest _ Hcred Hlist Hev).
    destruct He as [-> | ->]; reflexivity.
Qed.

Lemma failed_event_request_is_reported_witness :
  (exists msg,
      fetch_events (world_with_events (URLError "timed out")) "tok_1" "dpl_8fK2" None
      = inl (VercelAPIError msg)
      /\ run (world_with_events (URLError "timed out"))
         = ([announce sample_deployment; ICON_CROSS ++ " " ++ msg], inr 1%Z))
  /\ run (world_with_events (Raises UnicodeDecodeError))
     = ([announce sample_deployment], inl UnicodeDecodeError).
Proof.
  split.
  - apply (proj1 (failed_event_request_is_reported
                    (world_with_events (URLError "timed out")) "tok_1" "audiojones"
                    sample_deployment []
                    (conj eq_refl (conj eq_refl (conj eq_refl eq_refl))) eq_refl)).
    intros r. reflexivity.
  - apply (proj2 (failed_event_request_is_reported
                    (world_with_events (Raises UnicodeDecodeError)) "tok_1" "audiojones"
                    sample_deployment []
                    (conj eq_refl (conj eq_refl (conj eq_refl eq_refl))) eq_refl)).
    + intros r. reflexivity.
    + now right.
Defined.

(** X10: an event document that is neither a list nor an object makes
    [fetch_events] raise [AttributeError], and an object whose ["events"]
    cannot be iterated (null, a boolean, a number) makes it raise
    [TypeError]; [main] catches neither: the run ends on the exception,
    after the announcement and without a report. *)
Theorem malformed_event_document_is_not_caught :
  forall (w : World) (token project : string) (latest : Deployment)
         (rest : list Deployment) (document : value),
    credentials w token project ->
    list_deployments w token project (getenv w "VERCEL_TEAM_ID") = inr (latest :: rest) ->
    (forall r, events_api w r = Payload document) ->
    (is_list document = false -> is_dict document = false ->
     run w = ([announce latest], inl AttributeError))
    /\ (forall d v,
          document = VDict d ->
          Dict.lookup d "events" = Some v ->
          iterable v = false ->
          run w = ([announce latest], inl TypeError)).
Proof.
  intros w token project latest rest document Hcred Hlist Hdoc. split.
  - intros Hl Hd.
    rewrite (run_events_raise w token project latest rest AttributeError Hcred Hlist);
      [reflexivity|].
    unfold fetch_events, make_request. rewrite Hdoc.
    destruct document; try discriminate; reflexivity.
  - intros d v -> Hv Hiter.
    rewrite (run_events_raise w token project latest rest TypeError Hcred Hlist);
      [reflexivity|].
    unfold fetch_events, make_request. rewrite Hdoc.
    cbn [bind ret]. unfold Dict.get_default. rewrite Hv.
    destruct v; try discriminate; reflexivity.
Qed.

Lemma malformed_event_document_is_not_caught_witness :
  run (world_with_events (Payload (VStr "Not Found")))
  = ([announce sample_deployment], inl AttributeError)
  /\ run (world_with_events (Payload (VDict [("events", VNone)])))
     = ([announce sample_deployment], inl TypeError).
Proof.
  split.
  - apply (proj1 (malformed_event_document_is_not_caught
                    (world_with_events (Payload (VStr "Not Found")))
                    "tok_1" "audiojones" sample_deployment [] (VStr "Not Found")
                    (conj eq_refl (conj eq_refl (conj eq_refl eq_refl)))
                    eq_refl (fun _ => eq_refl))); reflexivity.
  - apply (proj2 (malformed_event_document_is_not_caught
                    (world_with_events (Payload (VDict [("events", VNone)])))
                    "tok_1" "audiojones" sample_deployment []
                    (VDict [("events", VNone)])
                    (conj eq_refl (conj eq_refl (conj eq_refl eq_refl)))
                    eq_refl (fun _ => eq_refl))
             [("events", VNone)] VNone); reflexivity.
Defined.

(** ** The event document *)

Lemma only_dicts_filter (items : list value) :
  map VDict (only_dicts items) = filter is_dict items.
Proof.
  induction items as [|v items IH]; [reflexivity|].
  destruct v; simpl; now rewrite ?IH.
Qed.

Lemma only_dicts_of_strings {A : Type} (f : A -> string) (l : list A) :
  only_dicts (map (fun a => VStr (f a)) l) = [].
Proof. induction l as [|a l IH]; [reflexivity | exact IH]. Qed.

(** X12: [fetch_events] reads the events from a document that is a list,
    or from the ["events"] of a document that is an object; it returns the
    objects among them, all of them and in their order, and drops every
    other item.  An object without ["events"], or whose ["events"] is a
    text or an object, gives no event. *)
Theorem fetch_events_keeps_the_objects :
  forall (w : World) (token id : string) (team : option string) (document : value),
    (forall r, events_api w r = Payload document) ->
    (forall items,
        document = VList items
        \/ (exists d, document = VDict d /\ Dict.lookup d "events" = Some (VList items)) ->
        exists events,
          fetch_events w token id team = inr events
          /\ map VDict events = filter is_dict items)
    /\ (forall d,
          document = VDict d ->
          Dict.lookup d "events" = None
          \/ (exists s, Dict.lookup d "events" = Some (VStr s))
          \/ (exists o, Dict.lookup d "events" = Some (VDict o)) ->
          fetch_events w token id team = inr []).
Proof.
  intros w token id team document Hdoc. split.
  - intros items Hshape. exists (only_dicts items).
    split; [|apply only_dicts_filter].
    unfold fetch_events, make_request. rewrite Hdoc.
    destruct Hshape as [-> | [d [-> Hev]]]; [reflexivity|].
    cbn [bind ret]. unfold Dict.get_default. now rewrite Hev.
  - intros d -> Hev. unfold fetch_events, make_request. rewrite Hdoc.
    cbn [bind ret]. unfold Dict.get_default.
    destruct Hev as [-> | [[s ->] | [o ->]]]; cbn [bind ret iterate].
    + reflexivity.
    + unfold ret. f_equal. apply only_dicts_of_strings.
    + unfold ret. f_equal.
      apply (only_dicts_of_strings (fun kv : string * value => fst kv)).
Qed.

Lemma fetch_events_keeps_the_objects_witness :
  exists events,
    fetch_events
      (world_with_events
         (Payload (VDict [("events",
            VList [VStr "x"; VDict (message_event "a"); VNone; VDict (message_event "b")])])))
      "tok_1" "dpl_8fK2" None = inr events
    /\ map VDict events = [VDict (message_event "a"); VDict (message_event "b")].
Proof.
  apply (proj1 (fetch_events_keeps_the_objects
                  (world_with_events
                     (Payload (VDict [("events",
                        VList [VStr "x"; VDict (message_event "a"); VNone;
                               VDict (message_event "b")])])))
                  "tok_1" "dpl_8fK2" None _ (fun _ => eq_refl))
           [VStr "x"; VDict (message_event "a"); VNone; VDict (message_event "b")]).
  right. eexists. split; reflexivity.
Defined.

(** ** Insights: what they depend on *)

Lemma scan_events_skips_empty (before after : list dict) (event : dict) :
  event_text event = "" ->
  scan_events (before ++ event :: after) = scan_events (before ++ after).
Proof.
  intros He. induction before as [|e before IH].
  - cbn [app scan_events]. rewrite extract_text_returns, He. reflexivity.
  - cbn [app scan_events]. rewrite extract_text_returns. cbn [bind].
    now rewrite IH.
Qed.

(** X13: an event without text counts for nothing: with it or without it,
    wherever it stands in the log, the insights are the same. *)
Theorem textless_event_is_ignored :
  forall (d : Deployment) (before after : list dict) (event : dict),
    event_text event = "" ->
    derive_insights d (before ++ event :: after) = derive_insights d (before ++ after).
Proof.
  intros d before after event He.
  unfold derive_insights, find_framework.
  rewrite (scan_events_skips_empty before after event He).
  rewrite !event_lines_returns, !map_app, !filter_app. cbn [map filter].
  now rewrite He.
Qed.

Lemma textless_event_is_ignored_witness :
  derive_insights sample_deployment
    [message_event "Error: build failed"; [("type", VStr "delimiter")];
     message_event "exit 1"]
  = derive_insights sample_deployment
      [message_event "Error: build failed"; message_event "exit 1"].
Proof.
  apply (textless_event_is_ignored sample_deployment
           [message_event "Error: build failed"] [message_event "exit 1"]
           [("type", VStr "delimiter")]).
  reflexivity.
Defined.


(** ** Framework: range and first hit *)

Lemma first_marker_In (markers : list string) (text m : string) :
  first_marker markers text = Some m -> In m markers.
Proof.
  induction markers as [|m' rest IH]; simpl; [discriminate|].
  destruct (contains m' text).
  - intros H. injection H as <-. now left.
  - intros H. right. now apply IH.
Qed.

Lemma scan_events_range (events : list dict) (m : string) :
  scan_events events = inr (Some m) -> In m FRAMEWORK_MARKERS.
Proof.
  induction events as [|e events IH]; cbn [scan_events]; [discriminate|].
  rewrite extract_text_returns. cbn [bind].
  destruct (first_marker FRAMEWORK_MARKERS (lower (event_text e))) as [m'|] eqn:E.
  - intros H. injection H as <-. exact (first_marker_In _ _ _ E).
  - exact IH.
Qed.

Lemma scan_events_first_hit (events more : list dict) (m : string) :
  scan_events events = inr (Some m) -> scan_events (events ++ more) = inr (Some m).
Proof.
  induction events as [|e events IH]; cbn [app scan_events]; [discriminate|].
  rewrite extract_text_returns. cbn [bind].
  destruct (first_marker FRAMEWORK_MARKERS (lower (event_text e))); [trivial | exact IH].
Qed.

(** X15: the framework [find_framework] returns is the one of the
    deployment, when that is present and not empty, or else one of the
    four markers ["next.js"], ["astro"], ["remix"], ["sveltekit"], or none:
    no other text of the log is ever returned. *)
Theorem find_framework_range :
  forall (d : Deployment) (events : list dict),
  exists r,
    find_framework d events = inr r
    /\ ((truthy_opt (framework d) = true /\ r = framework d)
        \/ (truthy_opt (framework d) = false
            /\ (r = None \/ exists m, r = Some m /\ In m FRAMEWORK_MARKERS))).
Proof.
  intros d events. destruct (find_framework_returns d events) as [r Hr].
  exists r. split; [exact Hr|].
  unfold find_framework in Hr. destruct (truthy_opt (framework d)).
  - left. split; [reflexivity|]. unfold ret in Hr. congruence.
  - right. split; [reflexivity|]. destruct r as [m|]; [|now left].
    right. exists m. split; [reflexivity|]. exact (scan_events_range events m Hr).
Qed.

(** X16: the first hit decides: once a log resolves the framework, more
    events after it do not change the answer. *)
Theorem find_framework_first_hit :
  forall (d : Deployment) (events more : list dict) (m : string),
    find_framework d events = inr (Some m) ->
    find_framework d (events ++ more) = inr (Some m).
Proof.
  intros d events more m. unfold find_framework.
  destruct (truthy_opt (framework d)); [trivial|].
  apply scan_events_first_hit.
Qed.

Lemma find_framework_first_hit_witness :
  find_framework sample_deployment
    ([message_event "Detected Astro"] ++ [message_event "Installing Next.js"])
  = inr (Some "astro").
Proof.
  apply find_framework_first_hit. reflexivity.
Defined.

(** ** The phrase sets against each other *)

Lemma string_app_assoc (a b c : string) : (a ++ b) ++ c = a ++ b ++ c.
Proof. induction a as [|x a IH]; simpl; [reflexivity | now rewrite IH]. Qed.

Lemma contains_trans (p q s : string) :
  contains p q = true -> contains q s = true -> contains p s = true.
Proof.
  intros Hpq Hqs. apply contains_spec in Hpq, Hqs. apply contains_spec.
  destruct Hpq as [a [b ->]]. destruct Hqs as [a' [b' ->]].
  exists (a' ++ a), (b ++ b'). now rewrite !string_app_assoc.
Qed.

(** X17: a line that counts as a missing dependency also counts as an
    error line, unless ["package not found"] is what it holds: that
    phrase is the only one of the dependency set that no error phrase
    covers, and a line with it alone is no error line. *)
Theorem dependency_lines_are_error_lines :
  forall (line : string),
    (mentions DEPENDENCY_PATTERNS line = true ->
     mentions ERROR_PATTERNS line = true
     \/ contains "package not found" (lower line) = true)
    /\ mentions DEPENDENCY_PATTERNS "package not found" = true
    /\ mentions ERROR_PATTERNS "package not found" = false.
Proof.
  intros line. split; [|split; reflexivity].
  intros Hdep. apply existsb_exists in Hdep. destruct Hdep as [p [Hin Hp]].
  assert (Herr : forall q, In q ERROR_PATTERNS -> contains q p = true ->
                           mentions ERROR_PATTERNS line = true).
  { intros q Hq Hqp. apply existsb_exists. exists q. split; [exact Hq|].
    exact (contains_trans q p (lower line) Hqp Hp). }
  simpl in Hin. destruct Hin as [<- | [<- | [<- | [<- | [<- | []]]]]].
  - left. apply (Herr "module not found"); [simpl; tauto | reflexivity].
  - left. apply (Herr "cannot"); [simpl; tauto | reflexivity].
  - left. apply (Herr "missing"); [simpl; tauto | reflexivity].
  - right. exact Hp.
  - left. apply (Herr "missing"); [simpl; tauto | reflexivity].
Qed.

Lemma dependency_lines_are_error_lines_witness :
  mentions ERROR_PATTERNS "npm ERR! Missing script: build" = true
  \/ contains "package not found" (lower "npm ERR! Missing script: build") = true.
Proof.
  apply (proj1 (dependency_lines_are_error_lines "npm ERR! Missing script: build")).
  reflexivity.
Defined.

(** ** The framework of an item of the deployment list *)

(** X18: the framework read from an item of the deployment list is what
    its ["meta"] holds under ["framework"] when ["meta"] is an object, and
    [None] in every other case: no ["meta"], a null, empty or false one,
    or one that is a text, a number or a list; reading it raises
    nothing. *)
Theorem item_framework_comes_from_meta :
  forall (item : dict),
    (forall m, Dict.lookup item "meta" = Some (VDict m) ->
               item_framework item = Dict.get m "framework")
    /\ ((forall m, Dict.lookup item "meta" <> Some (VDict m)) ->
        item_framework item = VNone).
Proof.
  intros item. unfold item_framework, Dict.get. split.
  - intros m Hm. rewrite Hm. destruct m; reflexivity.
  - intros Hnot. destruct (Dict.lookup item "meta") as [meta|]; [|reflexivity].
    destruct meta as [|b|q|s|items|m]; cbn [value_truthy].
    + reflexivity.
    + destruct b; reflexivity.
    + destruct (negb (Qeq_bool q 0)); reflexivity.
    + destruct (truthy s); reflexivity.
    + destruct (nonempty items); reflexivity.
    + exfalso. exact (Hnot m eq_refl).
Qed.

Lemma item_framework_comes_from_meta_witness :
  item_framework [("uid", VStr "dpl_1"); ("meta", VDict [("framework", VStr "nextjs")])]
  = VStr "nextjs"
  /\ item_framework [("uid", VStr "dpl_2"); ("meta", VStr "nextjs")] = VNone.
Proof.
  split.
  - apply (proj1 (item_framework_comes_from_meta _) [("framework", VStr "nextjs")]).
    reflexivity.
  - apply (proj2 (item_framework_comes_from_meta _)).
    intros m H. discriminate H.
Defined.
